(** * A shallow embedding of the poly3 geometry, the polygon bounding sphere,
      the Minkowski-sum entry point and polygon snapping of @jscad/modeling.

    JavaScript numbers are IEEE-754 binary64 values; they are modelled by
    Rocq's primitive floats.  The functions are written once over an
    interface of number operations, so that the same text can also be read
    over the real numbers, where no rounding occurs.

    Polygons are objects with mutable fields: they live in a store, and
    the functions that take or return a polygon take or return a reference
    into it. *)

From Stdlib Require Import Floats Reals Lra Lia ZArith.
From stdpp Require Import gmap strings list.

Set Warnings "-inexact-float,-register-all".

(** ** Numbers *)

(** The operations the modelled functions use on numbers. *)
Class JsNum (N : Type) := {
  nzero : N;
  nhalf : N;                  (* the literal 0.5 *)
  nadd : N -> N -> N;
  nsub : N -> N -> N;
  nmul : N -> N -> N;
  ndiv : N -> N -> N;
  nneg : N -> N;
  nsqrt : N -> N;             (* Math.sqrt *)
  nround : N -> N;            (* Math.round *)
  nltb : N -> N -> bool;      (* a < b *)
  nsame : N -> N -> bool;     (* a === b *)
  nof_nat : nat -> N          (* an array length used as a number *)
}.

(** [a > b] *)
Definition ngtb {N} `{JsNum N} (a b : N) : bool := nltb b a.

(** Equality of the decimal renderings of two numbers, as in a template
    string: NaN renders as "NaN" and both zeros render as "0". *)
Definition nsame_text {N} `{JsNum N} (a b : N) : bool :=
  nsame a b || (negb (nsame a a) && negb (nsame b b)).

Module Float64.

Definition of_Z (z : Z) : float :=
  match z with
  | Z0 => 0%float
  | Zpos _ => PrimFloat.of_uint63 (Uint63.of_Z z)
  | Zneg p => PrimFloat.opp (PrimFloat.of_uint63 (Uint63.of_Z (Zpos p)))
  end.

(** Math.round: the integer nearest to [x], ties towards +Infinity; NaN,
    infinities and integral values are returned as they are, and a result
    of zero keeps the sign of [x]. *)
Definition round (x : float) : float :=
  match Prim2SF x with
  | S754_finite s m e =>
      if (0 <=? e)%Z then x
      else
        let q := (2 ^ (- e))%Z in
        let n := if s then Zneg m else Zpos m in
        let r := ((2 * n + q) / (2 * q))%Z in
        if (r =? 0)%Z then (if s then (-0)%float else 0%float) else of_Z r
  | _ => x
  end.

#[global] Instance float_num : JsNum float := {|
  nzero := 0%float;
  nhalf := 0.5%float;
  nadd := PrimFloat.add;
  nsub := PrimFloat.sub;
  nmul := PrimFloat.mul;
  ndiv := PrimFloat.div;
  nneg := PrimFloat.opp;
  nsqrt := PrimFloat.sqrt;
  nround := round;
  nltb := PrimFloat.ltb;
  nsame := PrimFloat.eqb;
  nof_nat := fun n => of_Z (Z.of_nat n)
|}.

End Float64.

Module Exact.

#[global] Instance real_num : JsNum R := {|
  nzero := 0%R;
  nhalf := (/ 2)%R;
  nadd := Rplus;
  nsub := Rminus;
  nmul := Rmult;
  ndiv := Rdiv;
  nneg := Ropp;
  nsqrt := sqrt;
  nround := fun x => IZR (Int_part (x + / 2));
  nltb := fun a b => if Rlt_dec a b then true else false;
  nsame := fun a b => if Req_dec_T a b then true else false;
  nof_nat := INR
|}.

End Exact.

(** ** Vectors *)

Record vec3 (N : Type) := Vec3 { c0 : N; c1 : N; c2 : N }.
Record vec4 (N : Type) := Vec4 { q0 : N; q1 : N; q2 : N; q3 : N }.
Arguments Vec3 {N} _ _ _.
Arguments c0 {N} _.
Arguments c1 {N} _.
Arguments c2 {N} _.
Arguments Vec4 {N} _ _ _ _.
Arguments q0 {N} _.
Arguments q1 {N} _.
Arguments q2 {N} _.
Arguments q3 {N} _.

(** The center of a sphere stored as [center x, center y, center z, radius]. *)
Definition center {N} (s : vec4 N) : vec3 N := Vec3 (q0 s) (q1 s) (q2 s).
Definition radius {N} (s : vec4 N) : N := q3 s.

Module vec3.
Section WithNum.
Context {N : Type} `{JsNum N}.

(** Modelled from the spec: maths/vec3 is not among the sources modelled
    here; the
    distance of two points is the length of their difference. *)
Definition distance (a b : vec3 N) : N :=
  let x := nsub (c0 b) (c0 a) in
  let y := nsub (c1 b) (c1 a) in
  let z := nsub (c2 b) (c2 a) in
  nsqrt (nadd (nadd (nmul x x) (nmul y y)) (nmul z z)).

(** [a] and [b] have the same three components ([===] on each). *)
Definition equals (a b : vec3 N) : bool :=
  nsame (c0 a) (c0 b) && nsame (c1 a) (c1 b) && nsame (c2 a) (c2 b).

End WithNum.
End vec3.

Module plane.
Section WithNum.
Context {N : Type} `{JsNum N}.

(** Modelled from the spec: maths/plane is not among the sources
    modelled here; flipping a plane negates its normal and its offset. *)
Definition flip (p : vec4 N) : vec4 N :=
  Vec4 (nneg (q0 p)) (nneg (q1 p)) (nneg (q2 p)) (nneg (q3 p)).

End WithNum.
End plane.

(** ** Polygons as objects in a store *)

(** A poly3 object: [null] fields are [None]. *)
Record poly3 (N : Type) := Poly3 {
  vertices : list (vec3 N);
  plane : option (vec4 N);
  boundingSphere : option (vec4 N)
}.
Arguments Poly3 {N} _ _ _.
Arguments vertices {N} _.
Arguments plane {N} _.
Arguments boundingSphere {N} _.

(** The [plane] field, under a name that stays free where an accessor of
    the same name is defined. *)
Definition plane_field {N} (p : poly3 N) : option (vec4 N) := plane p.

(** Object references. *)
Definition loc := positive.

(** [new]: the object is stored at a reference no live object has. *)
Definition alloc {N} (o : poly3 N) (h : gmap loc (poly3 N)) : loc * gmap loc (poly3 N) :=
  let l := fresh (dom h) in (l, <[l := o]> h).

Module poly3.
Section WithNum.
Context {N : Type} `{JsNum N}.

Abbreviation heap := (gmap loc (poly3 N)).

(** The object literal [create] returns. [None] is a call without
    argument ([undefined]). *)
Definition create_object (arg : option (list (vec3 N))) : poly3 N :=
  let vs :=
    match arg with
    | None => []
    | Some vs => if length vs <? 3 then [] else vs
    end in
  {| vertices := vs; plane := None; boundingSphere := None |}.

(** geometries/poly3/create.js: the new object and the store that holds
    it. *)
Definition create (arg : option (list (vec3 N))) (h : heap) : loc * heap :=
  alloc (create_object arg) h.

(** geometries/poly3/fromPointsAndPlane.js: no checks are performed on the
    parameters. *)
Definition fromPointsAndPlane (vs : list (vec3 N)) (pl : vec4 N)
    (h : heap) : loc * heap :=
  alloc {| vertices := vs; plane := Some pl; boundingSphere := None |} h.

(** The loop of [invert]: slot [i] of a new array of the same length
    receives [src[len - 1 - i]]. *)
Definition reversed_copy (src : list (vec3 N)) : list (vec3 N) :=
  let len := length src in
  omap (fun i => src !! (len - 1 - i)) (seq 0 len).

(** geometries/poly3/invert.js: the reversed copy goes through [create],
    and the new object receives the flipped plane when the given polygon
    has one. [None] only when the reference is dangling. *)
Definition invert (polygon : loc) (h : heap) : option (loc * heap) :=
  match h !! polygon with
  | None => None
  | Some p =>
      let src := vertices p in
      let '(inverted, h1) := create (Some (reversed_copy src)) h in
      match plane p with
      | Some pl =>
          Some (inverted,
                alter (fun o => {| vertices := vertices o;
                                   plane := Some (plane.flip pl);
                                   boundingSphere := boundingSphere o |})
                      inverted h1)
      | None => Some (inverted, h1)
      end
  end.

End WithNum.
End poly3.

(** ** The bounding sphere of a polygon *)

Module measure.
Section WithNum.
Context {N : Type} `{JsNum N}.

Abbreviation heap := (gmap loc (poly3 N)).

(** The six vertices the loop keeps: the extreme ones by axis. *)
Record extremes := Extremes {
  minx : vec3 N; miny : vec3 N; minz : vec3 N;
  maxx : vec3 N; maxy : vec3 N; maxz : vec3 N
}.

(** One iteration of the loop, at vertex [v]. *)
Definition extremes_step (e : extremes) (v : vec3 N) : extremes :=
  {| minx := if ngtb (c0 (minx e)) (c0 v) then v else minx e;
     miny := if ngtb (c1 (miny e)) (c1 v) then v else miny e;
     minz := if ngtb (c2 (minz e)) (c2 v) then v else minz e;
     maxx := if nltb (c0 (maxx e)) (c0 v) then v else maxx e;
     maxy := if nltb (c1 (maxy e)) (c1 v) then v else maxy e;
     maxz := if nltb (c2 (maxz e)) (c2 v) then v else maxz e |}.

Definition extremes_of (first : vec3 N) (vs : list (vec3 N)) : extremes :=
  fold_left extremes_step vs (Extremes first first first first first first).

(** The sphere computed from a non-empty vertex list [first :: rest]. *)
Definition sphere_of (first : vec3 N) (rest : list (vec3 N)) : vec4 N :=
  let e := extremes_of first (first :: rest) in
  let o0 := nmul (nadd (c0 (minx e)) (c0 (maxx e))) nhalf in
  let o1 := nmul (nadd (c1 (miny e)) (c1 (maxy e))) nhalf in
  let o2 := nmul (nadd (c2 (minz e)) (c2 (maxz e))) nhalf in
  let x := nsub o0 (c0 (maxx e)) in
  let y := nsub o1 (c1 (maxy e)) in
  let z := nsub o2 (c2 (maxz e)) in
  Vec4 o0 o1 o2 (nsqrt (nadd (nadd (nmul x x) (nmul y y)) (nmul z z))).

(** poly3.measureBoundingSphere: the cached sphere when there is one;
    otherwise the zero sphere for a polygon without vertices, which is not
    cached, or the computed sphere, which is stored on the polygon. The
    result comes with the store after the call; [None] only when the
    reference is dangling. *)
Definition measureBoundingSphere (polygon : loc) (h : heap) : option (vec4 N * heap) :=
  match h !! polygon with
  | None => None
  | Some p =>
      match boundingSphere p with
      | Some cached => Some (cached, h)
      | None =>
          match vertices p with
          | [] => Some (Vec4 nzero nzero nzero nzero, h)
          | first :: rest =>
              let out := sphere_of first rest in
              Some (out,
                    <[polygon := {| vertices := vertices p;
                                    plane := plane p;
                                    boundingSphere := Some out |}]> h)
          end
      end
  end.

End WithNum.
End measure.

(** ** Results of functions that can throw *)

Inductive outcome (A : Type) :=
| Returned (a : A)
| Thrown (message : string).
Arguments Returned {A} _.
Arguments Thrown {A} _.

(** ** Sequences of calls on a store of polygons *)

Module calls.
Section WithNum.
Context {N : Type} `{JsNum N}.

(** maths/plane.fromPoints is not among the sources modelled here: [None]
    stands for its degenerate-plane error. *)
Variable fromPoints : list (vec3 N) -> option (vec4 N).

Abbreviation heap := (gmap loc (poly3 N)).

(** Modelled from the spec: the accessor poly3.plane is not among the
    sources modelled here. The plane of a polygon is computed lazily from its vertices on
    first use and cached on the polygon; a degenerate vertex list is
    reported when the plane is computed. *)
Definition plane (polygon : loc) (h : heap) : option (outcome (vec4 N) * heap) :=
  match h !! polygon with
  | None => None
  | Some p =>
      match plane_field p with
      | Some cached => Some (Returned cached, h)
      | None =>
          match fromPoints (vertices p) with
          | None => Some (Thrown "degenerate plane", h)
          | Some pl =>
              Some (Returned pl,
                    <[polygon := {| vertices := vertices p;
                                    plane := Some pl;
                                    boundingSphere := boundingSphere p |}]> h)
          end
      end
  end.

(** The calls a client can make on the polygons of a store. *)
Inductive call :=
| CallCreate (arg : option (list (vec3 N)))
| CallFromPointsAndPlane (vs : list (vec3 N)) (pl : vec4 N)
| CallInvert (polygon : loc)
| CallMeasureBoundingSphere (polygon : loc)
| CallPlane (polygon : loc).

(** The store after one call; [None] when the call is made on a dangling
    reference. A call that throws leaves the store as it found it. *)
Definition run_call (c : call) (h : heap) : option heap :=
  match c with
  | CallCreate arg => Some (snd (poly3.create arg h))
  | CallFromPointsAndPlane vs pl => Some (snd (poly3.fromPointsAndPlane vs pl h))
  | CallInvert p => snd <$> poly3.invert p h
  | CallMeasureBoundingSphere p => snd <$> measure.measureBoundingSphere p h
  | CallPlane p => snd <$> plane p h
  end.

Fixpoint run_calls (cs : list call) (h : heap) : option heap :=
  match cs with
  | [] => Some h
  | c :: cs => match run_call c h with
               | Some h' => run_calls cs h'
               | None => None
               end
  end.

(** How a polygon object can differ after calls: its vertices are the
    same, and each cache is as it was or, if it was empty, holds the value
    computed from the vertices. *)
Definition evolves (o o' : poly3 N) : Prop :=
  vertices o' = vertices o /\
  (boundingSphere o' = boundingSphere o \/
   (boundingSphere o = None /\
    exists first rest, vertices o = first :: rest /\
                       boundingSphere o' = Some (measure.sphere_of first rest))) /\
  (plane_field o' = plane_field o \/
   (plane_field o = None /\
    exists pl, fromPoints (vertices o) = Some pl /\ plane_field o' = Some pl)).

(** Every sphere cached in the store is the one computed from the vertices
    of its polygon. *)
Definition well_cached (h : heap) : Prop :=
  forall l o, h !! l = Some o ->
    boundingSphere o = None \/
    exists first rest, vertices o = first :: rest /\
                       boundingSphere o = Some (measure.sphere_of first rest).

End WithNum.
End calls.

(** ** The Minkowski sum of two geometries *)

Module minkowski.
Section WithNum.
Context {N : Type} `{JsNum N}.

(** A geom3 as the operation sees it through geom3.toPolygons: its list of
    polygons. *)
Definition geom3 := list (poly3 N).

(** The values a caller can pass: a geometry, a nested array of values, a
    value that is neither (the string ['invalid'] of the tests), or
    [undefined], which is also what destructuring gives for a missing
    element. *)
Inductive value :=
| Geom (g : geom3)
| Arr (items : list value)
| Other (text : string)
| Undefined.

(** Modelled from the spec: utils/flatten is not among the sources
    modelled here; it flattens nested arrays of arguments into one list, in order. *)
Fixpoint flatten_value (v : value) : list value :=
  match v with
  | Arr items => flat_map flatten_value items
  | _ => [v]
  end.

Definition flatten (args : list value) : list value :=
  flat_map flatten_value args.

(** Modelled from the spec: geom3.isA is not among the sources modelled
    here; it tells geometries from the other values. *)
Definition isA (v : value) : bool :=
  match v with
  | Geom _ => true
  | _ => false
  end.

Definition toPolygons (v : value) : list (poly3 N) :=
  match v with
  | Geom g => g
  | _ => []
  end.

(** The collaborators that are not among the sources modelled here.
    isConvex is called on values that geom3.isA has accepted, and is taken
    to return. hullPoints3 and union are called without any guard, on
    points and parts that minkowskiSum makes: what they throw is thrown by
    minkowskiSum, so both return or throw. *)
Variable isConvex : geom3 -> bool.
Variable hullPoints3 : list (vec3 N) -> outcome (list (poly3 N)).
Variable union : list geom3 -> outcome geom3.

(** What the operation does besides returning or throwing: the convexity
    analyses it runs, the hulls and unions it asks for and the geometries
    it constructs, in order. A hull or a union that throws was asked for
    all the same. *)
Inductive event :=
| ConvexityAnalysis (g : geom3)
| HullConstruction (points : list (vec3 N))
| GeometryConstruction (polygons : list (poly3 N))
| UnionConstruction (parts : list geom3).

(** A computation: the events it performed, and how it ended. *)
Definition comp (A : Type) : Type := list event * outcome A.

Definition ret {A} (a : A) : comp A := ([], Returned a).

Definition throw {A} (message : string) : comp A := ([], Thrown message).

Definition bind {A B} (m : comp A) (f : A -> comp B) : comp B :=
  match m with
  | (t, Returned a) => let '(t', r) := f a in (t ++ t', r)
  | (t, Thrown e) => (t, Thrown e)
  end.

Definition emit (e : event) : comp unit := ([e], Returned tt).

(** The end of a call made outside, which performs no event of its own. *)
Definition lift {A} (r : outcome A) : comp A := ([], r).

Notation "x <- m ;; k" := (bind m (fun x => k))
  (at level 100, m at next level, right associativity).

Fixpoint mapM {A B} (f : A -> comp B) (l : list A) : comp (list B) :=
  match l with
  | [] => ret []
  | a :: l => b <- f a ;; bs <- mapM f l ;; ret (b :: bs)
  end.

Definition geom3_create (polygons : list (poly3 N)) : comp geom3 :=
  _ <- emit (GeometryConstruction polygons) ;; ret polygons.

Definition call_isConvex (g : geom3) : comp bool :=
  _ <- emit (ConvexityAnalysis g) ;; ret (isConvex g).

Definition call_hullPoints3 (points : list (vec3 N)) : comp (list (poly3 N)) :=
  _ <- emit (HullConstruction points) ;; lift (hullPoints3 points).

Definition call_union (parts : list geom3) : comp geom3 :=
  _ <- emit (UnionConstruction parts) ;; lift (union parts).

(** The key of a vertex in the set of vertices already found is the text
    of its three components; two keys are the same text exactly when the
    components render alike. *)
Definition same_key (a b : vec3 N) : bool :=
  nsame_text (c0 a) (c0 b) && nsame_text (c1 a) (c1 b) && nsame_text (c2 a) (c2 b).

Definition extractUniqueVertices (geometry : geom3) : list (vec3 N) :=
  fold_left
    (fun unique v => if existsb (same_key v) unique then unique else unique ++ [v])
    (flat_map vertices geometry) [].

Definition computeCentroid (geometry : geom3) : vec3 N :=
  let vs := extractUniqueVertices geometry in
  match vs with
  | [] => Vec3 nzero nzero nzero
  | _ =>
      let x := fold_left (fun acc v => nadd acc (c0 v)) vs nzero in
      let y := fold_left (fun acc v => nadd acc (c1 v)) vs nzero in
      let z := fold_left (fun acc v => nadd acc (c2 v)) vs nzero in
      let n := nof_nat (length vs) in
      Vec3 (ndiv x n) (ndiv y n) (ndiv z n)
  end.

Definition createTetrahedronPolygons (p0 p1 p2 p3 : vec3 N) : list (poly3 N) :=
  [ poly3.create_object (Some [p0; p2; p1]);
    poly3.create_object (Some [p0; p1; p3]);
    poly3.create_object (Some [p1; p2; p3]);
    poly3.create_object (Some [p2; p0; p3]) ].

(** The triangles of the fan of a polygon: [(vertices[0], vertices[j],
    vertices[j + 1])] for [j] from 1 to [length - 2]. *)
Definition fan (vs : list (vec3 N)) : list (vec3 N * vec3 N * vec3 N) :=
  match vs with
  | [] => []
  | v0 :: rest => zip_with (fun v1 v2 => (v0, v1, v2)) rest (tail rest)
  end.

Definition decomposeIntoTetrahedra (geometry : geom3) : comp (list geom3) :=
  match geometry with
  | [] => ret []
  | _ =>
      let centroid := computeCentroid geometry in
      mapM (fun '(v0, v1, v2) =>
              geom3_create (createTetrahedronPolygons centroid v0 v1 v2))
           (flat_map (fun p => fan (vertices p)) geometry)
  end.

Definition minkowskiSumConvex (geomA geomB : geom3) : comp geom3 :=
  let pointsA := extractUniqueVertices geomA in
  let pointsB := extractUniqueVertices geomB in
  match pointsA, pointsB with
  | [], _ | _, [] => geom3_create []
  | _, _ =>
      let summedPoints :=
        flat_map (fun a =>
          map (fun b => Vec3 (nadd (c0 a) (c0 b)) (nadd (c1 a) (c1 b)) (nadd (c2 a) (c2 b)))
              pointsB) pointsA in
      hullPolygons <- call_hullPoints3 summedPoints ;;
      geom3_create hullPolygons
  end.

Definition minkowskiSumNonConvexConvex (geomA geomB : geom3) : comp geom3 :=
  tetrahedra <- decomposeIntoTetrahedra geomA ;;
  match tetrahedra with
  | [] => geom3_create []
  | _ =>
      parts <- mapM (fun tet => minkowskiSumConvex tet geomB) tetrahedra ;;
      match parts with
      | [part] => ret part
      | _ => call_union parts
      end
  end.

(** operations/minkowski.minkowskiSum: the checks at entry, then the
    dispatch on the convexity of the two operands. *)
Definition minkowskiSum (args : list value) : comp geom3 :=
  let geometries := flatten args in
  if length geometries <? 2 then
    throw "minkowskiSum requires at least two geometries"
  else if 2 <? length geometries then
    throw "minkowskiSum currently supports exactly two geometries"
  else
    let geomA := default Undefined (geometries !! 0) in
    let geomB := default Undefined (geometries !! 1) in
    if negb (isA geomA) || negb (isA geomB) then
      throw "minkowskiSum requires geom3 geometries"
    else
      let geomA := toPolygons geomA in
      let geomB := toPolygons geomB in
      aConvex <- call_isConvex geomA ;;
      bConvex <- call_isConvex geomB ;;
      if aConvex && bConvex then minkowskiSumConvex geomA geomB
      else if negb aConvex && bConvex then minkowskiSumNonConvexConvex geomA geomB
      else if aConvex && negb bConvex then minkowskiSumNonConvexConvex geomB geomA
      else throw "minkowskiSum of two non-convex geometries is not yet supported".

(** No argument is an array: the arguments are the operands, as in the
    type declaration [minkowskiSum(...geometries: Geom3[])]. *)
Definition is_array (v : value) : bool :=
  match v with
  | Arr _ => true
  | _ => false
  end.

Definition plain (args : list value) : Prop :=
  forallb (fun v => negb (is_array v)) args = true.

(** [i] is the position of the one operand that is not a geometry. *)
Definition offending (args : list value) (i : nat) : Prop :=
  (exists v, args !! i = Some v /\ isA v = false) /\
  forall j w, j <> i -> args !! j = Some w -> isA w = true.

End WithNum.
End minkowski.

(** ** Snapping the vertices of polygons to a grid *)

Module snap.
Section WithNum.
Context {N : Type} `{JsNum N}.

(** Modelled from the spec: snapPolygons and the vector snap it relies on
    are not among the sources modelled here (the test of snapPolygons is).
    A coordinate is quantized to the grid of multiples of the tolerance. *)
Definition snap_coordinate (epsilon x : N) : N :=
  nmul (nround (ndiv x epsilon)) epsilon.

Definition snap_vertex (epsilon : N) (v : vec3 N) : vec3 N :=
  Vec3 (snap_coordinate epsilon (c0 v))
       (snap_coordinate epsilon (c1 v))
       (snap_coordinate epsilon (c2 v)).

(** Modelled from the spec: vertices that became the same vertex are
    merged: a vertex equal to the next one around the loop is left out. *)
Fixpoint drop_repeats (first : vec3 N) (vs : list (vec3 N)) : list (vec3 N) :=
  match vs with
  | [] => []
  | v :: rest =>
      let next := match rest with [] => first | w :: _ => w end in
      if vec3.equals v next then drop_repeats first rest
      else v :: drop_repeats first rest
  end.

Definition merge_vertices (vs : list (vec3 N)) : list (vec3 N) :=
  match vs with
  | [] => []
  | first :: _ => drop_repeats first vs
  end.

(** The vertices of a loop without the later occurrences of a vertex. *)
Fixpoint distinct (vs : list (vec3 N)) : list (vec3 N) :=
  match vs with
  | [] => []
  | v :: rest => v :: List.filter (fun w => negb (vec3.equals v w)) (distinct rest)
  end.

(** Two loops have the same vertices, one by one. *)
Definition same_loop (a b : list (vec3 N)) : bool :=
  (length a =? length b) && forallb (fun '(x, y) => vec3.equals x y) (zip a b).

(** Modelled from the spec: the vertices of a loop have collapsed into a
    repeated cycle when the loop goes two or more times through a shorter
    cycle: for a length [d] of the cycle that divides the length of the
    loop, the loop is its first [d] vertices, repeated. *)
Definition repeats_cycle (vs : list (vec3 N)) : bool :=
  existsb (fun d =>
             (length vs mod d =? 0) &&
             same_loop vs (concat (replicate (length vs / d) (take d vs))))
          (seq 1 (length vs - 1)).

(** Modelled from the spec: the polygons of the result are the snapped
    polygons, but for those that are left with fewer than 3 distinct
    vertices and those whose vertices have collapsed into a repeated
    cycle. *)
Definition snapPolygons (epsilon : N) (polygons : list (poly3 N)) : list (poly3 N) :=
  let newPolygons :=
    map (fun polygon =>
           poly3.create_object
             (Some (merge_vertices (map (snap_vertex epsilon) (vertices polygon)))))
        polygons in
  List.filter (fun polygon =>
                 (3 <=? length (distinct (vertices polygon))) &&
                 negb (repeats_cycle (vertices polygon)))
              newPolygons.

End WithNum.
End snap.

(** ** Predicates of exact arithmetic *)

Module ideal.
Local Open Scope R_scope.

(** [v] lies in the box spanned by the extreme vertices [e]. *)
Definition boxed (e : measure.extremes (N:=R)) (v : vec3 R) : Prop :=
  c0 (measure.minx e) <= c0 v <= c0 (measure.maxx e) /\
  c1 (measure.miny e) <= c1 v <= c1 (measure.maxy e) /\
  c2 (measure.minz e) <= c2 v <= c2 (measure.maxz e).

(** The extremes are ordered along each axis. *)
Definition ordered (e : measure.extremes (N:=R)) : Prop :=
  c0 (measure.minx e) <= c0 (measure.maxx e) /\
  c1 (measure.miny e) <= c1 (measure.maxy e) /\
  c2 (measure.minz e) <= c2 (measure.maxz e).

(** [lo] and [hi] are the corners of the bounding box of the vertices:
    along each axis every vertex lies between them, and a vertex reaches
    each of them. *)
Definition bounding_box (vs : list (vec3 R)) (lo hi : vec3 R) : Prop :=
  (forall v, v ∈ vs ->
     c0 lo <= c0 v <= c0 hi /\ c1 lo <= c1 v <= c1 hi /\ c2 lo <= c2 v <= c2 hi) /\
  (exists v, v ∈ vs /\ c0 v = c0 lo) /\ (exists v, v ∈ vs /\ c0 v = c0 hi) /\
  (exists v, v ∈ vs /\ c1 v = c1 lo) /\ (exists v, v ∈ vs /\ c1 v = c1 hi) /\
  (exists v, v ∈ vs /\ c2 v = c2 lo) /\ (exists v, v ∈ vs /\ c2 v = c2 hi).




(** A right triangle with real coordinates, the one polygon of a store. *)
Definition triangle : poly3 R :=
  {| vertices := [Vec3 0 0 0; Vec3 4 0 0; Vec3 0 3 0];
     plane := None; boundingSphere := None |}.
Definition triangle_store : gmap loc (poly3 R) := {[ 1%positive := triangle ]}.

Definition twice_round : list (vec3 R) := vertices triangle ++ vertices triangle.

End ideal.

(** ** The polygons of the snapPolygons test *)

Module snap_test.
Local Open Scope float_scope.

Definition v (x y z : float) : vec3 float := Vec3 x y z.

Definition poly (vs : list (vec3 float)) : poly3 float :=
  poly3.create_object (Some vs).

Definition polygons : list (poly3 float) :=
  [ poly [v 0 0 0; v 0 10 0; v 0 10 10];
    poly [v 0 0 0; v 0 10 0; v 0 10 10; v 0 0 10];
    poly3.create_object None;
    poly [v 0 0 0];
    poly [v 0 0 0; v 0 10 0];
    poly [v (-24.445112000000115) 19.346837333333426 46.47572533333356;
          v (-24.44446933333345) 19.346837333333426 46.47508266666689;
          v (-23.70540266666678) 18.79864266666676 39.56448800000019;
          v (-23.70540266666678) 18.79864266666676 39.56448800000019];
    poly [v (-24.445112000000115) 19.346837333333426 46.47572533333356;
          v (-23.70540266666678) 18.79864266666676 39.56448800000019;
          v (-23.70540266666678) 18.79864266666676 39.56448800000019];
    poly [v (-23.70540266666678) 18.79864266666676 39.56448800000019;
          v (-23.70540266666678) 18.79864266666676 39.56448800000019];
    poly [v (-24.445112000000115) 19.346837333333426 46.47572533333356;
          v (-24.44446933333345) 19.346837333333426 46.47508266666689;
          v (-23.70540266666678) 18.79864266666676 39.56448800000019;
          v (-23.70540266666678 - 0.00001234) (18.79864266666676 + 0.000001234)
            (39.56448800000019 + 0.00001234)];
    poly [v (-24.445112000000115) 19.346837333333426 46.47572533333356;
          v (-23.70540266666678 - 0.00001234) (18.79864266666676 + 0.000001234)
            (39.56448800000019 + 0.00001234);
          v (-23.70540266666678) 18.79864266666676 39.56448800000019;
          v (-23.70540266666678 - 0.00001234) (18.79864266666676 + 0.000001234)
            (39.56448800000019 + 0.00001234)];
    poly [v (-23.70540266666678) 18.79864266666676 39.56448800000019;
          v (-23.70540266666678 - 0.00001234) (18.79864266666676 + 0.000001234)
            (39.56448800000019 + 0.00001234);
          v (-23.70540266666678) 18.79864266666676 39.56448800000019;
          v (-23.70540266666678 - 0.00001234) (18.79864266666676 + 0.000001234)
            (39.56448800000019 + 0.00001234)];
    poly [v 20.109133333333336 (-4.894033333333335) (-1.0001266666666668);
          v 20.021120000000003 (-5.1802133333333344) (-1.0001266666666668);
          v 20.020300000000002 (-5.182946666666668) (-1.0001266666666668);
          v 10.097753333333335 (-5.182946666666668) (-1.0001266666666668);
          v 10.287720000000002 (-4.894033333333335) (-1.0001266666666668)] ].

Definition exp3 : list (vec3 float) :=
  [ v (-24.4451) 19.3468 46.4757;
    v (-24.4445) 19.3468 46.475100000000005;
    v (-23.7054) 18.7986 39.5645 ].

End snap_test.

(** ** Concrete inputs *)

Module runs.
Local Open Scope float_scope.

Definition v (x y z : float) : vec3 float := Vec3 x y z.

Definition empty_store : gmap loc (poly3 float) := ∅.

(** A right triangle in the plane [z = 0], as a polygon of a store. *)
Definition triangle : list (vec3 float) := [v 0 0 0; v 4 0 0; v 0 3 0].
Definition triangle_ref : loc := (poly3.create (Some triangle) empty_store).1.
Definition triangle_store : gmap loc (poly3 float) :=
  (poly3.create (Some triangle) empty_store).2.


(** A polygon of two vertices, made without checks. *)
Definition segment : list (vec3 float) := [v 0 0 0; v 1 0 0].
Definition segment_ref : loc :=
  (poly3.fromPointsAndPlane segment (Vec4 0 0 1 0) empty_store).1.
Definition segment_store : gmap loc (poly3 float) :=
  (poly3.fromPointsAndPlane segment (Vec4 0 0 1 0) empty_store).2.

(** A triangle far from the origin, where neighbouring numbers are 2
    apart. *)
Definition far_triangle : list (vec3 float) :=
  [v 9007199254740994 0 0; v 9007199254740996 0 0; v 9007199254740996 1 0].
Definition far_ref : loc := (poly3.create (Some far_triangle) empty_store).1.
Definition far_store : gmap loc (poly3 float) :=
  (poly3.create (Some far_triangle) empty_store).2.

(** A stand-in for maths/plane.fromPoints on the triangle above. *)
Definition fromPoints (vs : list (vec3 float)) : option (vec4 float) :=
  match vs with
  | _ :: _ :: _ :: _ => Some (Vec4 0 0 1 0)
  | _ => None
  end.


(** The store after the bounding sphere of the triangle was measured, and
    after the calls made next. *)
Definition triangle_sphere : vec4 float := Vec4 2 1.5 0 2.5.
Definition measured_store : gmap loc (poly3 float) :=
  default ∅ (snd <$> measure.measureBoundingSphere triangle_ref triangle_store).



(** The sphere measured for the far triangle, and its vertex of least x. *)
Definition far_sphere : vec4 float := Vec4 9007199254740996 0.5 0 0.5.
Definition far_vertex : vec3 float := v 9007199254740994 0 0.

(** The tolerance of the snapPolygons test. *)
Definition tolerance : float := 0.0001.


Definition twice_round : poly3 float :=
  poly3.create_object
    (Some [v 0 0 0; v 0 10 0; v 0 10 10; v 0 0 0; v 0 10 0; v 0 10 10]).

(** Stand-ins for the collaborators of minkowskiSum. *)
Definition isConvex (g : minkowski.geom3 (N:=float)) : bool := true.
Definition hullPoints3 (points : list (vec3 float)) : outcome (list (poly3 float)) :=
  Returned [].
Definition union (parts : list (minkowski.geom3 (N:=float)))
  : outcome (minkowski.geom3 (N:=float)) :=
  Returned (concat parts).

Definition solid : minkowski.value (N:=float) :=
  minkowski.Geom [poly3.create_object (Some triangle)].
Definition invalid : minkowski.value (N:=float) := minkowski.Other "invalid".

End runs.

(** ** Notions used to state further properties *)

Module notions.
Section WithNum.
Context {N : Type} `{JsNum N}.

(** The directed edges of a loop of vertices: each vertex with the next
    one, the last with the first. *)
Definition edges (vs : list (vec3 N)) : list (vec3 N * vec3 N) :=
  match vs with
  | [] => []
  | first :: rest => zip vs (rest ++ [first])
  end.

(** The directed edges of all the faces of a surface. *)
Definition surface_edges (faces : list (poly3 N)) : list (vec3 N * vec3 N) :=
  flat_map (fun face => edges (vertices face)) faces.

Definition opposite (e : vec3 N * vec3 N) : vec3 N * vec3 N := (e.2, e.1).

(** The events that construct something. *)
Definition is_construction (e : minkowski.event (N:=N)) : bool :=
  match e with
  | minkowski.ConvexityAnalysis _ => false
  | _ => true
  end.

Definition is_union (e : minkowski.event (N:=N)) : bool :=
  match e with
  | minkowski.UnionConstruction _ => true
  | _ => false
  end.

Definition is_hull (e : minkowski.event (N:=N)) : bool :=
  match e with
  | minkowski.HullConstruction _ => true
  | _ => false
  end.

(** A sphere whose center has, along each axis, half the sum of that
    coordinate of two vertices, and whose radius is the length of the
    difference of the center and the corner of the coordinates of the
    second vertices. *)
Definition sphere_between (xmin xmax ymin ymax zmin zmax : vec3 N)
    (s : vec4 N) : Prop :=
  q0 s = nmul (nadd (c0 xmin) (c0 xmax)) nhalf /\
  q1 s = nmul (nadd (c1 ymin) (c1 ymax)) nhalf /\
  q2 s = nmul (nadd (c2 zmin) (c2 zmax)) nhalf /\
  q3 s = nsqrt (nadd (nadd (nmul (nsub (q0 s) (c0 xmax)) (nsub (q0 s) (c0 xmax)))
                           (nmul (nsub (q1 s) (c1 ymax)) (nsub (q1 s) (c1 ymax))))
                     (nmul (nsub (q2 s) (c2 zmax)) (nsub (q2 s) (c2 zmax)))).


(** The vertices of a list in the order of their first occurrence: the
    first vertex, then the first occurrences among the later vertices that
    do not have its key. The recursion is on a number of steps; the number
    of vertices is enough for all of them. *)
Fixpoint first_occurrences_of (steps : nat) (vs : list (vec3 N)) : list (vec3 N) :=
  match steps, vs with
  | S steps, v :: rest =>
      v :: first_occurrences_of steps
             (List.filter (fun w => negb (minkowski.same_key w v)) rest)
  | _, _ => []
  end.

Definition first_occurrences (vs : list (vec3 N)) : list (vec3 N) :=
  first_occurrences_of (length vs) vs.

(** The errors minkowskiSum throws itself. *)
Definition own_messages : list string :=
  [ "minkowskiSum requires at least two geometries";
    "minkowskiSum currently supports exactly two geometries";
    "minkowskiSum requires geom3 geometries";
    "minkowskiSum of two non-convex geometries is not yet supported" ].

(** The number of triangles of the fans of the polygons of a geometry. *)
Definition fan_count (geometry : list (poly3 N)) : nat :=
  sum_list (map (fun p => length (vertices p) - 2) geometry).

(** The sum of two points. *)
Definition point_sum (a b : vec3 N) : vec3 N :=
  Vec3 (nadd (c0 a) (c0 b)) (nadd (c1 a) (c1 b)) (nadd (c2 a) (c2 b)).

(** A vertex list of a proper polygon or of the empty placeholder. *)
Definition sized (vs : list (vec3 N)) : Prop :=
  length vs = 0 \/ 3 <= length vs.

(** Every polygon of the store has no vertices or at least 3. *)
Definition well_sized (h : gmap loc (poly3 N)) : Prop :=
  forall l o, h !! l = Some o -> sized (vertices o).

(** A call that cannot bring a polygon of 1 or 2 vertices into the store. *)
Definition sized_call (c : calls.call (N:=N)) : Prop :=
  match c with
  | calls.CallFromPointsAndPlane vs _ => sized vs
  | _ => True
  end.

End WithNum.
End notions.

(** ** More concrete inputs *)

Module more_runs.
Local Open Scope float_scope.

(** The triangle of [runs] and a square, as geometries of one polygon. *)
Definition triangle_geometry : list (poly3 float) :=
  [poly3.create_object (Some runs.triangle)].
Definition square_geometry : list (poly3 float) :=
  [poly3.create_object
     (Some [runs.v 0 0 0; runs.v 1 0 0; runs.v 1 1 0; runs.v 0 1 0])].

(** A stand-in for isConvex that takes only the geometry without polygons
    for convex, and one that takes no geometry for convex. *)
Definition only_empty_convex (g : minkowski.geom3 (N:=float)) : bool :=
  match g with
  | [] => true
  | _ => false
  end.
Definition never_convex (g : minkowski.geom3 (N:=float)) : bool := false.

(** A geometry whose one polygon has the same vertex three times. *)
Definition point_geometry : list (poly3 float) :=
  [poly3.create_object (Some [runs.v 1 1 1; runs.v 1 1 1; runs.v 1 1 1])].

(** Stand-ins for hullPoints3 that throw: one when it is given fewer than
    4 points, one always. *)
Definition hull_of_four (points : list (vec3 float))
  : outcome (list (poly3 float)) :=
  if (length points <? 4)%nat then Thrown "hullPoints3 needs 4 points"
  else Returned [].
Definition hull_fails (points : list (vec3 float))
  : outcome (list (poly3 float)) :=
  Thrown "hullPoints3 failed".

(** The tetrahedra of the triangle and of the square. *)
Definition tetrahedra (geometry : list (poly3 float)) : list (list (poly3 float)) :=
  match (minkowski.decomposeIntoTetrahedra geometry).2 with
  | Returned tets => tets
  | Thrown _ => []
  end.
Definition triangle_tetrahedra : list (list (poly3 float)) :=
  tetrahedra triangle_geometry.
Definition square_tetrahedra : list (list (poly3 float)) :=
  tetrahedra square_geometry.

(** Calls that give no list of 1 or 2 vertices to fromPointsAndPlane. *)
Definition sized_calls : list (calls.call (N:=float)) :=
  [ calls.CallCreate (Some runs.triangle);
    calls.CallInvert 1%positive;
    calls.CallCreate (Some runs.segment);
    calls.CallMeasureBoundingSphere 1%positive;
    calls.CallFromPointsAndPlane runs.triangle (Vec4 0 0 1 0) ].
Definition sized_store : gmap loc (poly3 float) :=
  default ∅ (calls.run_calls runs.fromPoints sized_calls ∅).

End more_runs.

(** * Properties *)

(** ** The store *)

Section Store.
Context {N : Type}.

Lemma alloc_spec (o : poly3 N) (h : gmap loc (poly3 N)) :
  h !! (alloc o h).1 = None /\
  (alloc o h).2 !! (alloc o h).1 = Some o /\
  forall l, l <> (alloc o h).1 -> (alloc o h).2 !! l = h !! l.
Proof.
  unfold alloc; simpl.
  pose proof (is_fresh (dom h)) as Hfresh.
  split; [by apply not_elem_of_dom|].
  split; [by rewrite lookup_insert_eq|].
  intros l Hl. by rewrite lookup_insert_ne.
Qed.

End Store.

(** ** poly3 *)

Section Poly3.
Context {N : Type} `{JsNum N}.

Lemma reversed_copy_take (src : list (vec3 N)) (k a : nat) :
  a + k = length src ->
  omap (fun i => src !! (length src - 1 - i)) (seq a k) = rev (take k src).
Proof.
  revert a. induction k as [|k IH]; intros a Hk; [reflexivity|].
  simpl seq. simpl omap.
  replace (length src - 1 - a) with k by lia.
  destruct (lookup_lt_is_Some_2 src k ltac:(lia)) as [x Hx].
  rewrite Hx, (take_S_r _ _ _ Hx), rev_unit.
  f_equal. apply (IH (S a)). lia.
Qed.

Lemma reversed_copy_rev (src : list (vec3 N)) :
  poly3.reversed_copy src = rev src.
Proof.
  unfold poly3.reversed_copy.
  rewrite (reversed_copy_take src (length src) 0) by lia.
  by rewrite firstn_all.
Qed.

(** C6: [create] called without argument, or with fewer than 3 vertices,
    returns a new polygon object whose vertex list is empty and whose
    [plane] and [boundingSphere] are [null]; no other object of the store
    is touched. *)
Theorem create_placeholder (arg : option (list (vec3 N))) (h : gmap loc (poly3 N)) :
  (arg = None \/ exists vs, arg = Some vs /\ length vs < 3) ->
  let '(polygon, h') := poly3.create arg h in
  h !! polygon = None /\
  h' !! polygon = Some {| vertices := []; plane := None; boundingSphere := None |} /\
  forall l, l <> polygon -> h' !! l = h !! l.
Proof.
  intros Harg.
  assert (poly3.create_object arg = Poly3 [] None None) as Hobj.
  { unfold poly3.create_object.
    destruct Harg as [-> | (vs & -> & Hlen)]; [reflexivity|].
    apply Nat.ltb_lt in Hlen. by rewrite Hlen. }
  unfold poly3.create. rewrite Hobj.
  destruct (alloc_spec (Poly3 (N:=N) [] None None) h) as (H1 & H2 & H3).
  destruct (alloc _ h) as [polygon h']. simpl in *. auto.
Qed.

(** What [invert] does, for every polygon of the store. *)
Lemma invert_result (polygon : loc) (p : poly3 N) (h : gmap loc (poly3 N)) :
  h !! polygon = Some p ->
  exists inverted h',
    poly3.invert polygon h = Some (inverted, h') /\
    h !! inverted = None /\
    h' !! inverted =
      Some {| vertices := if length (vertices p) <? 3 then [] else rev (vertices p);
              plane := plane.flip <$> plane p;
              boundingSphere := None |} /\
    forall l, l <> inverted -> h' !! l = h !! l.
Proof.
  intros Hp. unfold poly3.invert. rewrite Hp.
  unfold poly3.create.
  set (o := poly3.create_object (Some (poly3.reversed_copy (vertices p)))).
  assert (o = Poly3 (if length (vertices p) <? 3 then [] else rev (vertices p)) None None) as Ho.
  { unfold o, poly3.create_object.
    by rewrite reversed_copy_rev, length_rev. }
  destruct (alloc_spec o h) as (H1 & H2 & H3).
  destruct (alloc o h) as [inverted h1]. simpl in *.
  destruct (plane p) as [pl|] eqn:Hpl.
  - eexists _, _. split; [reflexivity|]. split; [done|]. split.
    + rewrite lookup_alter_eq, H2, Ho. reflexivity.
    + intros l Hl. rewrite lookup_alter_ne by done. by apply H3.
  - eexists _, _. split; [reflexivity|]. split; [done|]. split.
    + by rewrite H2, Ho.
    + done.
Qed.

(** C10, as amended: [invert] returns a new polygon object; its vertex
    sequence is the reversal of that of the given polygon when this one
    has at least 3 vertices, and is empty otherwise; its plane is the
    flipped plane of the given polygon when this one has a plane; the
    given polygon, and every other object of the store, is as it was. *)
Theorem invert_new_polygon (polygon : loc) (p : poly3 N) (h : gmap loc (poly3 N)) :
  h !! polygon = Some p ->
  exists inverted h',
    poly3.invert polygon h = Some (inverted, h') /\
    inverted <> polygon /\
    h' !! polygon = Some p /\
    h' !! inverted =
      Some {| vertices := if length (vertices p) <? 3 then [] else rev (vertices p);
              plane := plane.flip <$> plane p;
              boundingSphere := None |} /\
    forall l, l <> inverted -> h' !! l = h !! l.
Proof.
  intros Hp.
  destruct (invert_result polygon p h Hp) as (inverted & h' & Hinv & Hfresh & Hnew & Hframe).
  assert (inverted <> polygon) as Hne by congruence.
  exists inverted, h'. repeat split; try done.
  rewrite Hframe; [done | congruence].
Qed.

End Poly3.

(** ** The bounding sphere of a polygon without vertices *)

Section EmptyPolygon.
Context {N : Type} `{JsNum N}.

(** Whatever the numbers are, a polygon without vertices that has no
    sphere cached gets the zero sphere, and nothing is cached for it. *)
Lemma measure_empty (polygon : loc) (p : poly3 N) (h : gmap loc (poly3 N)) :
  h !! polygon = Some p ->
  boundingSphere p = None ->
  vertices p = [] ->
  measure.measureBoundingSphere polygon h = Some (Vec4 nzero nzero nzero nzero, h).
Proof.
  intros Hp Hb Hv. unfold measure.measureBoundingSphere.
  by rewrite Hp, Hb, Hv.
Qed.

End EmptyPolygon.

(** ** The caches of a polygon *)

Section Caches.
Context {N : Type} `{JsNum N}.
Variable fromPoints : list (vec3 N) -> option (vec4 N).

Abbreviation evolves := (calls.evolves fromPoints).

Lemma evolves_refl (o : poly3 N) : evolves o o.
Proof. unfold calls.evolves; auto. Qed.


Lemma measure_evolves (polygon l : loc) (o : poly3 N) (s : vec4 N)
    (h h' : gmap loc (poly3 N)) :
  h !! l = Some o ->
  measure.measureBoundingSphere polygon h = Some (s, h') ->
  exists o', h' !! l = Some o' /\ evolves o o'.
Proof.
  intros Hl. unfold measure.measureBoundingSphere.
  destruct (h !! polygon) as [p|] eqn:Hp; [|done].
  destruct (boundingSphere p) as [cached|] eqn:Hb.
  { intros [= <- <-]. exists o. split; [done | apply evolves_refl]. }
  destruct (vertices p) as [|first rest] eqn:Hvs.
  { intros [= <- <-]. exists o. split; [done | apply evolves_refl]. }
  intros [= <- <-].
  destruct (decide (polygon = l)) as [-> | Hne].
  - rewrite lookup_insert_eq. eexists. split; [reflexivity|].
    assert (p = o) as -> by congruence.
    split; [done|]. split; [|by left].
    right. split; [done|]. exists first, rest. by rewrite Hvs.
  - rewrite lookup_insert_ne by done. exists o. split; [done | apply evolves_refl].
Qed.

Lemma plane_evolves (polygon l : loc) (o : poly3 N) (r : outcome (vec4 N))
    (h h' : gmap loc (poly3 N)) :
  h !! l = Some o ->
  calls.plane fromPoints polygon h = Some (r, h') ->
  exists o', h' !! l = Some o' /\ evolves o o'.
Proof.
  intros Hl. unfold calls.plane, plane_field.
  destruct (h !! polygon) as [p|] eqn:Hp; [|done].
  destruct (plane p) as [cached|] eqn:Hc.
  { intros [= <- <-]. exists o. split; [done | apply evolves_refl]. }
  destruct (fromPoints (vertices p)) as [pl|] eqn:Hfp.
  2:{ intros [= <- <-]. exists o. split; [done | apply evolves_refl]. }
  intros [= <- <-].
  destruct (decide (polygon = l)) as [-> | Hne].
  - rewrite lookup_insert_eq. eexists. split; [reflexivity|].
    assert (p = o) as -> by congruence.
    split; [done|]. split; [by left|].
    right. split; [done|]. by exists pl.
  - rewrite lookup_insert_ne by done. exists o. split; [done | apply evolves_refl].
Qed.



Lemma well_cached_alloc (o : poly3 N) (h : gmap loc (poly3 N)) :
  boundingSphere o = None ->
  calls.well_cached h -> calls.well_cached (alloc o h).2.
Proof.
  intros Ho Hh l o' Hl.
  destruct (alloc_spec o h) as (_ & Hnew & Hframe).
  destruct (decide (l = (alloc o h).1)) as [-> | Hne].
  - left. congruence.
  - rewrite Hframe in Hl by done. by eapply Hh.
Qed.

Lemma run_call_well_cached (c : calls.call) (h h' : gmap loc (poly3 N)) :
  calls.well_cached h ->
  calls.run_call fromPoints c h = Some h' ->
  calls.well_cached h'.
Proof.
  intros Hh. destruct c as [arg | vs pl | p | p | p]; simpl.
  - intros [= <-]. apply well_cached_alloc; [|done].
    unfold poly3.create_object. by destruct arg.
  - intros [= <-]. by apply well_cached_alloc.
  - destruct (poly3.invert p h) as [[inverted h1]|] eqn:Hinv; [|done].
    intros [= <-]. simpl.
    assert (exists q, h !! p = Some q) as (q & Hq).
    { unfold poly3.invert in Hinv. destruct (h !! p); [eauto | done]. }
    destruct (invert_result p q h Hq) as (i & h2 & Hi & _ & Hnew & Hframe).
    rewrite Hi in Hinv. injection Hinv as <- <-.
    intros l o Hl. destruct (decide (l = i)) as [-> | Hne].
    + left. rewrite Hnew in Hl. by injection Hl as <-.
    + rewrite Hframe in Hl by done. by eapply Hh.
  - unfold measure.measureBoundingSphere.
    destruct (h !! p) as [q|] eqn:Hq; [|done].
    destruct (boundingSphere q) as [cached|] eqn:Hb; [by intros [= <-]|].
    destruct (vertices q) as [|first rest] eqn:Hvs; [by intros [= <-]|].
    intros [= <-]. simpl. intros l o Hl.
    destruct (decide (l = p)) as [-> | Hne].
    + rewrite lookup_insert_eq in Hl. injection Hl as <-. simpl.
      right. by exists first, rest.
    + rewrite lookup_insert_ne in Hl by done. by eapply Hh.
  - unfold calls.plane, plane_field.
    destruct (h !! p) as [q|] eqn:Hq; [|done].
    destruct (plane q) as [cached|] eqn:Hc; [by intros [= <-]|].
    destruct (fromPoints (vertices q)) as [pl|] eqn:Hfp; [|by intros [= <-]].
    intros [= <-]. simpl. intros l o Hl.
    destruct (decide (l = p)) as [-> | Hne].
    + rewrite lookup_insert_eq in Hl. injection Hl as <-. simpl.
      by apply (Hh p q).
    + rewrite lookup_insert_ne in Hl by done. by eapply Hh.
Qed.

(** The stores built by calls, starting with no polygon, cache only spheres
    computed from the vertices. *)
Lemma run_calls_well_cached (cs : list calls.call) (h h' : gmap loc (poly3 N)) :
  calls.well_cached h ->
  calls.run_calls fromPoints cs h = Some h' ->
  calls.well_cached h'.
Proof.
  revert h. induction cs as [|c cs IH]; intros h Hh; simpl.
  - by intros [= <-].
  - destruct (calls.run_call fromPoints c h) as [h1|] eqn:Hc; [|done].
    apply IH. by eapply run_call_well_cached.
Qed.

Lemma well_cached_empty : calls.well_cached (N:=N) ∅.
Proof. intros l o Hl. by rewrite lookup_empty in Hl. Qed.




End Caches.

(** ** The extreme vertices *)

Section Extremes.
Context {N : Type} `{JsNum N}.

(** The six extreme vertices are taken from [l]. *)
Abbreviation picked_from :=
  (fun (e : measure.extremes (N:=N)) (l : list (vec3 N)) =>
     measure.minx e ∈ l /\ measure.miny e ∈ l /\ measure.minz e ∈ l /\
     measure.maxx e ∈ l /\ measure.maxy e ∈ l /\ measure.maxz e ∈ l).

Lemma step_picked (e : measure.extremes) (v : vec3 N) (l : list (vec3 N)) :
  picked_from e l -> v ∈ l -> picked_from (measure.extremes_step e v) l.
Proof.
  intros (H1 & H2 & H3 & H4 & H5 & H6) Hv.
  unfold measure.extremes_step; simpl.
  repeat split;
    match goal with |- (if ?b then _ else _) ∈ _ => by destruct b end.
Qed.

Lemma fold_picked (vs l : list (vec3 N)) (e : measure.extremes) :
  picked_from e l -> (forall v, v ∈ vs -> v ∈ l) ->
  picked_from (fold_left measure.extremes_step vs e) l.
Proof.
  revert e. induction vs as [|w vs IH]; intros e He Hvs; simpl; [done|].
  apply IH.
  - apply step_picked; [done|]. apply Hvs. by left.
  - intros v Hv. apply Hvs. by right.
Qed.

(** The extreme vertices of a polygon are vertices of the polygon. *)
Lemma extremes_of_picked (first : vec3 N) (rest : list (vec3 N)) :
  picked_from (measure.extremes_of first (first :: rest)) (first :: rest).
Proof.
  unfold measure.extremes_of. apply fold_picked; [|done].
  simpl. repeat split; by left.
Qed.

(** The sphere computed for a polygon is built on six of its vertices. *)
Lemma sphere_of_between (first : vec3 N) (rest : list (vec3 N)) :
  exists xmin xmax ymin ymax zmin zmax,
    (xmin ∈ first :: rest /\ xmax ∈ first :: rest /\
     ymin ∈ first :: rest /\ ymax ∈ first :: rest /\
     zmin ∈ first :: rest /\ zmax ∈ first :: rest) /\
    notions.sphere_between xmin xmax ymin ymax zmin zmax
      (measure.sphere_of first rest).
Proof.
  destruct (extremes_of_picked first rest) as (H1 & H2 & H3 & H4 & H5 & H6).
  set (e := measure.extremes_of first (first :: rest)) in *.
  exists (measure.minx e), (measure.maxx e), (measure.miny e), (measure.maxy e),
         (measure.minz e), (measure.maxz e).
  split; [by repeat split|].
  unfold notions.sphere_between, measure.sphere_of. fold e. by simpl.
Qed.

(** What measureBoundingSphere returns for a polygon of a store whose
    cached spheres are spheres it computed. *)
Lemma measure_cases (polygon : loc) (p : poly3 N) (h : gmap loc (poly3 N)) :
  calls.well_cached h ->
  h !! polygon = Some p ->
  exists s h',
    measure.measureBoundingSphere polygon h = Some (s, h') /\
    match vertices p with
    | [] => s = Vec4 nzero nzero nzero nzero
    | first :: rest => s = measure.sphere_of first rest
    end.
Proof.
  intros Hcached Hp. unfold measure.measureBoundingSphere. rewrite Hp.
  destruct (Hcached polygon p Hp) as [Hb | (first & rest & Hvs & Hb)]; rewrite Hb.
  - destruct (vertices p) as [|first rest]; by eexists _, _.
  - rewrite Hvs. by eexists _, _.
Qed.

End Extremes.

(** ** The bounding sphere in exact arithmetic *)

Section ExactSphere.
Import ideal.
Local Open Scope R_scope.

Ltac case_ltb :=
  repeat match goal with
         | |- context [Rlt_dec ?a ?b] => destruct (Rlt_dec a b)
         end.

Lemma step_keeps (e : measure.extremes) (w v : vec3 R) :
  boxed e v -> boxed (measure.extremes_step e w) v.
Proof.
  unfold boxed, measure.extremes_step, ngtb; simpl.
  intros (Hx & Hy & Hz). case_ltb; repeat split; lra.
Qed.

Lemma step_covers (e : measure.extremes) (w : vec3 R) :
  c0 (measure.minx e) <= c0 (measure.maxx e) ->
  c1 (measure.miny e) <= c1 (measure.maxy e) ->
  c2 (measure.minz e) <= c2 (measure.maxz e) ->
  boxed (measure.extremes_step e w) w.
Proof.
  unfold boxed, measure.extremes_step, ngtb; simpl.
  intros Hx Hy Hz. case_ltb; repeat split; lra.
Qed.

Lemma step_ordered (e : measure.extremes) (w : vec3 R) :
  ordered e -> ordered (measure.extremes_step e w).
Proof.
  unfold ordered, measure.extremes_step, ngtb; simpl.
  intros (Hx & Hy & Hz). case_ltb; repeat split; lra.
Qed.

Lemma fold_boxed (vs : list (vec3 R)) (e : measure.extremes) :
  ordered e ->
  ordered (fold_left measure.extremes_step vs e) /\
  (forall v, boxed e v -> boxed (fold_left measure.extremes_step vs e) v) /\
  (forall v, v ∈ vs -> boxed (fold_left measure.extremes_step vs e) v).
Proof.
  revert e. induction vs as [|w vs IH]; intros e He; simpl.
  - split; [done|]. split; [done|]. intros v Hv. by apply elem_of_nil in Hv.
  - destruct (IH (measure.extremes_step e w) (step_ordered e w He))
      as (Ho & Hkeep & Hin).
    split; [done|]. split.
    + intros v Hv. by apply Hkeep, step_keeps.
    + intros v Hv. apply elem_of_cons in Hv as [-> | Hv].
      * destruct He as (Hx & Hy & Hz). by apply Hkeep, step_covers.
      * by apply Hin.
Qed.

Lemma extremes_of_boxed (first : vec3 R) (rest : list (vec3 R)) (v : vec3 R) :
  v ∈ first :: rest ->
  boxed (measure.extremes_of first (first :: rest)) v.
Proof.
  intros Hv. unfold measure.extremes_of.
  apply fold_boxed; [|done].
  unfold ordered; simpl. lra.
Qed.

(** Along one axis, a coordinate between the extremes is no farther from
    their midpoint than the upper extreme is. *)
Lemma axis_bound (lo hi x : R) :
  lo <= x <= hi ->
  (x - (lo + hi) * / 2) * (x - (lo + hi) * / 2)
  <= ((lo + hi) * / 2 - hi) * ((lo + hi) * / 2 - hi).
Proof. intros Hx. nra. Qed.

Lemma sphere_of_contains (first : vec3 R) (rest : list (vec3 R)) (v : vec3 R) :
  v ∈ first :: rest ->
  vec3.distance (center (measure.sphere_of first rest)) v
  <= radius (measure.sphere_of first rest).
Proof.
  intros Hv. destruct (extremes_of_boxed first rest v Hv) as (Hx & Hy & Hz).
  unfold vec3.distance, radius, center, measure.sphere_of.
  set (e := measure.extremes_of first (first :: rest)) in *.
  simpl. apply sqrt_le_1_alt.
  pose proof (axis_bound _ _ _ Hx). pose proof (axis_bound _ _ _ Hy).
  pose proof (axis_bound _ _ _ Hz). lra.
Qed.

(** With real numbers the six vertices are the extreme ones: the center
    of the sphere is the center of the bounding box of the vertices, and
    the sphere goes through the corners of the box. *)
Lemma sphere_of_box (first : vec3 R) (rest : list (vec3 R)) :
  exists lo hi,
    bounding_box (first :: rest) lo hi /\
    center (measure.sphere_of first rest)
    = Vec3 ((c0 lo + c0 hi) / 2) ((c1 lo + c1 hi) / 2) ((c2 lo + c2 hi) / 2) /\
    radius (measure.sphere_of first rest)
    = vec3.distance (center (measure.sphere_of first rest)) hi.
Proof.
  destruct (extremes_of_picked first rest) as (H1 & H2 & H3 & H4 & H5 & H6).
  pose proof (extremes_of_boxed first rest) as Hbox.
  unfold measure.sphere_of, center, radius, vec3.distance.
  set (e := measure.extremes_of first (first :: rest)) in *.
  exists (Vec3 (c0 (measure.minx e)) (c1 (measure.miny e)) (c2 (measure.minz e))),
         (Vec3 (c0 (measure.maxx e)) (c1 (measure.maxy e)) (c2 (measure.maxz e))).
  split; [|split].
  - split; [intros v Hv; apply (Hbox v Hv)|].
    split; [by exists (measure.minx e)|]. split; [by exists (measure.maxx e)|].
    split; [by exists (measure.miny e)|]. split; [by exists (measure.maxy e)|].
    split; [by exists (measure.minz e) | by exists (measure.maxz e)].
  - reflexivity.
  - simpl. f_equal. ring.
Qed.

(** C9, as amended. A polygon is an object of a store in which every
    cached sphere is one that measureBoundingSphere computed, as in every
    store made by the calls of the library. In every arithmetic,
    measureBoundingSphere returns the zero sphere for a polygon without
    vertices, and otherwise a sphere built on six vertices of the polygon:
    its center has, along each axis, half the sum of the coordinates of
    two of them, and its radius is the computed length of the difference
    of the center and the corner of the second ones. With numbers read as
    real numbers, these vertices are the extreme ones, the center is the
    center of the bounding box of the vertices, the radius is the distance
    of the center to the greatest corner of the box, and every vertex of
    the polygon is within the radius of the center. *)
Theorem measureBoundingSphere_bounds :
  (forall (N : Type) (HN : JsNum N) (polygon : loc) (p : poly3 N)
          (h : gmap loc (poly3 N)),
     calls.well_cached h ->
     h !! polygon = Some p ->
     exists s h',
       measure.measureBoundingSphere polygon h = Some (s, h') /\
       (vertices p = [] -> s = Vec4 nzero nzero nzero nzero) /\
       (vertices p <> [] ->
        exists xmin xmax ymin ymax zmin zmax,
          (xmin ∈ vertices p /\ xmax ∈ vertices p /\
           ymin ∈ vertices p /\ ymax ∈ vertices p /\
           zmin ∈ vertices p /\ zmax ∈ vertices p) /\
          notions.sphere_between xmin xmax ymin ymax zmin zmax s)) /\
  (forall (polygon : loc) (p : poly3 R) (h : gmap loc (poly3 R)),
     calls.well_cached h ->
     h !! polygon = Some p ->
     exists s h',
       measure.measureBoundingSphere polygon h = Some (s, h') /\
       (vertices p <> [] ->
        exists lo hi,
          bounding_box (vertices p) lo hi /\
          center s
          = Vec3 ((c0 lo + c0 hi) / 2) ((c1 lo + c1 hi) / 2) ((c2 lo + c2 hi) / 2) /\
          radius s = vec3.distance (center s) hi) /\
       (forall v, v ∈ vertices p -> vec3.distance (center s) v <= radius s)).
Proof.
  split.
  - intros N HN polygon p h Hcached Hp.
    destruct (measure_cases polygon p h Hcached Hp) as (s & h' & Hcall & Hs).
    exists s, h'. split; [done|].
    destruct (vertices p) as [|first rest]; [by split|].
    split; [done|]. intros _. subst s. apply sphere_of_between.
  - intros polygon p h Hcached Hp.
    destruct (measure_cases polygon p h Hcached Hp) as (s & h' & Hcall & Hs).
    exists s, h'. split; [done|].
    destruct (vertices p) as [|first rest].
    + split; [done|]. intros v Hv. by apply elem_of_nil in Hv.
    + subst s. split; [intros _; apply sphere_of_box|].
      intros v Hv. by apply sphere_of_contains.
Qed.

End ExactSphere.

(** ** The entry of minkowskiSum *)

Section MinkowskiEntry.
Context {N : Type} `{JsNum N}.
Variable isConvex : minkowski.geom3 (N:=N) -> bool.
Variable hullPoints3 : list (vec3 N) -> outcome (list (poly3 N)).
Variable union : list (minkowski.geom3 (N:=N)) -> outcome (minkowski.geom3 (N:=N)).

Abbreviation minkowskiSum := (minkowski.minkowskiSum isConvex hullPoints3 union).

(** Arguments that are not arrays are their own flattening. *)
Lemma flatten_plain (args : list (minkowski.value (N:=N))) :
  minkowski.plain args -> minkowski.flatten args = args.
Proof.
  unfold minkowski.plain, minkowski.flatten.
  induction args as [|v args IH]; simpl; [done|].
  intros Hargs. apply andb_true_iff in Hargs as (Hv & Hargs).
  rewrite IH by done. by destruct v.
Qed.

(** C7: with fewer than two operands, or with more than two, minkowskiSum
    throws, and it has run no convexity analysis and constructed no
    geometry when it does. The operands are the arguments, arrays among
    them being flattened. *)
Theorem minkowskiSum_operand_count (args : list minkowski.value) :
  (length (minkowski.flatten args) < 2 ->
   minkowskiSum args =
     ([], Thrown "minkowskiSum requires at least two geometries")) /\
  (2 < length (minkowski.flatten args) ->
   minkowskiSum args =
     ([], Thrown "minkowskiSum currently supports exactly two geometries")) /\
  (minkowski.plain args -> minkowski.flatten args = args).
Proof.
  unfold minkowski.minkowskiSum. split; [|split]; intros Hlen.
  - apply Nat.ltb_lt in Hlen. by rewrite Hlen.
  - destruct (length (minkowski.flatten args) <? 2) eqn:Hlt.
    + apply Nat.ltb_lt in Hlt. lia.
    + apply Nat.ltb_lt in Hlen. by rewrite Hlen.
  - by apply flatten_plain.
Qed.

(** C8, as amended: given two operands of which one is not a geometry,
    minkowskiSum throws the one message it has for this, and it has run no
    convexity analysis and constructed no geometry when it does. *)
Theorem minkowskiSum_non_geometry (args : list minkowski.value)
    (a b : minkowski.value) :
  minkowski.flatten args = [a; b] ->
  minkowski.isA a = false \/ minkowski.isA b = false ->
  minkowskiSum args = ([], Thrown "minkowskiSum requires geom3 geometries").
Proof.
  intros Hflat Hbad. unfold minkowski.minkowskiSum. rewrite Hflat. simpl.
  destruct Hbad as [-> | ->]; [done|].
  by rewrite orb_true_r.
Qed.

End MinkowskiEntry.

(** ** Snapping *)

Section SnapResult.
Context {N : Type} `{JsNum N}.

Lemma kept_length_le {A : Type} (f : A -> bool) (l : list A) :
  length (List.filter f l) <= length l.
Proof.
  induction l as [|a l IH]; simpl; [done|].
  destruct (f a); simpl; lia.
Qed.






End SnapResult.

Section SnapExact.
Import ideal.
Local Open Scope R_scope.













(** *** Merging *)

(** No vertex of the list is the vertex after it. *)
Abbreviation next_differs :=
  (fun l : list (vec3 R) => forall a b, (a, b) ∈ zip l (tail l) -> a <> b).







(** *** Distinct vertices *)





(** *** Repeated cycles *)




End SnapExact.

(** ** Concrete runs *)

Section Runs.
Import runs.

(** The model of snapPolygons gives, on the polygons of the repository's
    test, what the test expects: 5 polygons, the fourth with the expected
    vertices. *)
Lemma snapPolygons_test :
  length (snap.snapPolygons tolerance snap_test.polygons) = 5 /\
  vertices <$> snap.snapPolygons tolerance snap_test.polygons !! 3 = Some snap_test.exp3.
Proof. split; vm_compute; reflexivity. Qed.

(** Math.round on sample values: ties go up, and a zero result keeps the
    sign of the argument. *)
Lemma round_samples :
  map Float64.round [0.5; 2.5; 2.4; -2.5; -2.6; 1e300; 244451.12]%float
  = [1; 3; 2; -2; -3; 1e300; 244451]%float /\
  map (fun x => Prim2SF (Float64.round x)) [0.4; -0.4; -0.5]%float
  = [S754_zero false; S754_zero true; S754_zero true].
Proof. split; vm_compute; reflexivity. Qed.

Lemma create_placeholder_witness :
  (Some segment = None \/ exists vs, Some segment = Some vs /\ length vs < 3) /\
  let '(polygon, h') := poly3.create (Some segment) triangle_store in
  triangle_store !! polygon = None /\
  h' !! polygon = Some {| vertices := []; plane := None; boundingSphere := None |} /\
  forall l, l <> polygon -> h' !! l = triangle_store !! l.
Proof.
  assert (Some segment = None \/ exists vs, Some segment = Some vs /\ length vs < 3) as Harg.
  { right. exists segment. split; [reflexivity | simpl; lia]. }
  split; [exact Harg|].
  exact (create_placeholder (Some segment) triangle_store Harg).
Defined.



Lemma invert_new_polygon_witness :
  triangle_store !! triangle_ref
    = Some {| vertices := triangle; plane := None; boundingSphere := None |} /\
  exists inverted h',
    poly3.invert triangle_ref triangle_store = Some (inverted, h') /\
    inverted <> triangle_ref /\
    h' !! triangle_ref
      = Some {| vertices := triangle; plane := None; boundingSphere := None |} /\
    h' !! inverted
      = Some {| vertices := [v 0 3 0; v 4 0 0; v 0 0 0];
                plane := None; boundingSphere := None |} /\
    forall l, l <> inverted -> h' !! l = triangle_store !! l.
Proof.
  assert (triangle_store !! triangle_ref = Some (Poly3 triangle None None))
    as Hp by (vm_compute; reflexivity).
  split; [exact Hp|].
  exact (invert_new_polygon triangle_ref _ triangle_store Hp).
Defined.

(** C10, as stated, fails on a polygon of two vertices: the polygon
    [invert] returns has no vertices, which is not the reversal. *)
Lemma invert_short_polygon :
  exists p inverted h' q,
    segment_store !! segment_ref = Some p /\
    poly3.invert segment_ref segment_store = Some (inverted, h') /\
    h' !! inverted = Some q /\
    vertices p = [v 0 0 0; v 1 0 0] /\
    vertices q = [] /\
    vertices q <> rev (vertices p).
Proof.
  eexists _, _, _, _.
  split; [vm_compute; reflexivity|].
  split; [vm_compute; reflexivity|].
  split; [vm_compute; reflexivity|].
  split; [reflexivity|]. split; [reflexivity|]. discriminate.
Qed.

Lemma minkowskiSum_operand_count_witness :
  (length (minkowski.flatten [solid]) < 2 /\
   minkowski.minkowskiSum isConvex hullPoints3 union [solid]
   = ([], Thrown "minkowskiSum requires at least two geometries")) /\
  (2 < length (minkowski.flatten [solid; minkowski.Arr [solid; solid]]) /\
   minkowski.minkowskiSum isConvex hullPoints3 union
     [solid; minkowski.Arr [solid; solid]]
   = ([], Thrown "minkowskiSum currently supports exactly two geometries")) /\
  (minkowski.plain [solid; solid; solid] /\
   minkowski.flatten [solid; solid; solid] = [solid; solid; solid]).
Proof.
  assert (length (minkowski.flatten [solid]) < 2) as H1 by (simpl; lia).
  assert (2 < length (minkowski.flatten [solid; minkowski.Arr [solid; solid]]))
    as H2 by (simpl; lia).
  assert (minkowski.plain [solid; solid; solid]) as H3 by reflexivity.
  split; [|split]; (split; [assumption|]).
  - exact (proj1 (minkowskiSum_operand_count isConvex hullPoints3 union _) H1).
  - exact (proj1 (proj2 (minkowskiSum_operand_count isConvex hullPoints3 union _)) H2).
  - exact (proj2 (proj2 (minkowskiSum_operand_count isConvex hullPoints3 union _)) H3).
Defined.

Lemma minkowskiSum_non_geometry_witness :
  (minkowski.flatten [solid; invalid] = [solid; invalid] /\
   (minkowski.isA solid = false \/ minkowski.isA invalid = false)) /\
  minkowski.minkowskiSum isConvex hullPoints3 union [solid; invalid]
  = ([], Thrown "minkowskiSum requires geom3 geometries").
Proof.
  assert (minkowski.flatten [solid; invalid] = [solid; invalid]) as H1 by reflexivity.
  assert (minkowski.isA solid = false \/ minkowski.isA invalid = false) as H2
    by (right; reflexivity).
  split; [split; assumption|].
  exact (minkowskiSum_non_geometry isConvex hullPoints3 union _ _ _ H1 H2).
Defined.

(** C8, as stated, fails: whether the first or the second operand is the
    one that is not a geometry, minkowskiSum throws the same message, which
    therefore names no position. *)
Lemma minkowskiSum_message_without_position :
  minkowski.offending [invalid; solid] 0 /\
  minkowski.offending [solid; invalid] 1 /\
  minkowski.minkowskiSum isConvex hullPoints3 union [invalid; solid]
  = ([], Thrown "minkowskiSum requires geom3 geometries") /\
  minkowski.minkowskiSum isConvex hullPoints3 union [solid; invalid]
  = ([], Thrown "minkowskiSum requires geom3 geometries") /\
  ~ exists position_of : string -> nat,
      forall args i events message,
        minkowski.offending args i ->
        minkowski.minkowskiSum isConvex hullPoints3 union args
          = (events, Thrown message) ->
        position_of message = i.
Proof.
  assert (minkowski.offending [invalid; solid] 0) as H0.
  { split; [by exists invalid|].
    intros [|[|j]] w Hj Hw; try done; simpl in Hw; by injection Hw as <-. }
  assert (minkowski.offending [solid; invalid] 1) as H1.
  { split; [by exists invalid|].
    intros [|[|j]] w Hj Hw; try done; simpl in Hw; by injection Hw as <-. }
  split; [exact H0|]. split; [exact H1|].
  split; [reflexivity|]. split; [reflexivity|].
  intros (position_of & Hpos).
  pose proof (Hpos [invalid; solid] 0 [] _ H0 eq_refl) as E0.
  pose proof (Hpos [solid; invalid] 1 [] _ H1 eq_refl) as E1.
  congruence.
Qed.

(** C9, as stated, fails in binary64: the midpoint of the extreme x
    coordinates of the far triangle rounds to the greater one, so the
    sphere that is measured has the vertex of least x at a distance of
    about 2.06 from its center, with a radius of 0.5. *)
Lemma bounding_sphere_misses_vertex :
  exists h',
    measure.measureBoundingSphere far_ref far_store = Some (far_sphere, h') /\
    far_vertex ∈ far_triangle /\
    vec3.distance (center far_sphere) far_vertex = 2.0615528128088303%float /\
    radius far_sphere = 0.5%float /\
    PrimFloat.leb (vec3.distance (center far_sphere) far_vertex) (radius far_sphere)
    = false.
Proof.
  eexists. split; [vm_compute; reflexivity|].
  split; [apply elem_of_cons; by left|].
  repeat split; vm_compute; reflexivity.
Qed.


End Runs.

Section IdealRuns.
Import ideal.
Local Open Scope R_scope.

Lemma measureBoundingSphere_bounds_witness :
  ((calls.well_cached runs.far_store /\
    runs.far_store !! runs.far_ref = Some (Poly3 runs.far_triangle None None)) /\
   exists s h',
     measure.measureBoundingSphere runs.far_ref runs.far_store = Some (s, h') /\
     (runs.far_triangle = [] -> s = Vec4 nzero nzero nzero nzero) /\
     (runs.far_triangle <> [] ->
      exists xmin xmax ymin ymax zmin zmax,
        (xmin ∈ runs.far_triangle /\ xmax ∈ runs.far_triangle /\
         ymin ∈ runs.far_triangle /\ ymax ∈ runs.far_triangle /\
         zmin ∈ runs.far_triangle /\ zmax ∈ runs.far_triangle) /\
        notions.sphere_between xmin xmax ymin ymax zmin zmax s)) /\
  ((calls.well_cached triangle_store /\
    triangle_store !! 1%positive = Some triangle) /\
   exists s h',
     measure.measureBoundingSphere 1%positive triangle_store = Some (s, h') /\
     (vertices triangle <> [] ->
      exists lo hi,
        bounding_box (vertices triangle) lo hi /\
        center s
        = Vec3 ((c0 lo + c0 hi) / 2) ((c1 lo + c1 hi) / 2) ((c2 lo + c2 hi) / 2) /\
        radius s = vec3.distance (center s) hi) /\
     (forall v, v ∈ vertices triangle -> vec3.distance (center s) v <= radius s)).
Proof.
  destruct measureBoundingSphere_bounds as (Hany & Hexact).
  split.
  - assert (calls.well_cached runs.far_store) as Hcached.
    { apply (run_calls_well_cached runs.fromPoints
               [calls.CallCreate (Some runs.far_triangle)] ∅);
        [apply well_cached_empty | reflexivity]. }
    assert (runs.far_store !! runs.far_ref
            = Some (Poly3 runs.far_triangle None None)) as Hl
      by (vm_compute; reflexivity).
    split; [by split|].
    exact (Hany float _ runs.far_ref _ runs.far_store Hcached Hl).
  - assert (calls.well_cached triangle_store) as Hcached.
    { apply (run_calls_well_cached (fun _ => None)
               [calls.CallCreate (Some (vertices triangle))] ∅);
        [apply well_cached_empty | reflexivity]. }
    assert (triangle_store !! 1%positive = Some triangle) as Hl by reflexivity.
    split; [by split|].
    exact (Hexact 1%positive triangle triangle_store Hcached Hl).
Defined.


End IdealRuns.

(** * Further properties *)

(** ** The unique vertices of a geometry *)

Section UniqueVertices.
Context {N : Type} `{JsNum N}.

(** One step of the loop of extractUniqueVertices. *)
Abbreviation push_unique :=
  (fun (unique : list (vec3 N)) (v : vec3 N) =>
     if existsb (minkowski.same_key v) unique then unique else unique ++ [v]).

(** No later entry has the key of an earlier one. *)
Abbreviation keys_apart :=
  (ForallOrdPairs (fun u w : vec3 N => minkowski.same_key w u = false)).

Lemma keys_apart_snoc (l : list (vec3 N)) (v : vec3 N) :
  keys_apart l ->
  existsb (minkowski.same_key v) l = false ->
  keys_apart (l ++ [v]).
Proof.
  induction l as [|u l IH]; simpl; intros Hl Hv.
  - constructor; [constructor | constructor].
  - apply orb_false_iff in Hv as (Hu & Hv).
    inversion Hl as [|? ? Hhead Htail]; subst.
    constructor.
    + apply Forall_app. split; [done|]. by constructor.
    + by apply IH.
Qed.

Lemma unique_fold (vs pre acc : list (vec3 N)) :
  acc `sublist_of` pre ->
  keys_apart acc ->
  (forall v, v ∈ pre -> exists u, u ∈ acc /\ (u = v \/ minkowski.same_key v u = true)) ->
  let r := fold_left push_unique vs acc in
  r `sublist_of` pre ++ vs /\
  keys_apart r /\
  (forall v, v ∈ pre ++ vs ->
     exists u, u ∈ r /\ (u = v \/ minkowski.same_key v u = true)).
Proof.
  revert pre acc. induction vs as [|w vs IH]; intros pre acc Hsub Hkeys Hcov; simpl.
  - rewrite app_nil_r. done.
  - replace (pre ++ w :: vs) with ((pre ++ [w]) ++ vs) by (by rewrite <- app_assoc).
    destruct (existsb (minkowski.same_key w) acc) eqn:Hw.
    + apply IH; [by apply sublist_inserts_r | done |].
      intros v Hv. apply elem_of_app in Hv as [Hv | Hv]; [by apply Hcov|].
      apply list_elem_of_singleton in Hv as ->.
      apply existsb_exists in Hw as (u & Hu & Hk).
      exists u. split; [by apply list_elem_of_In | by right].
    + apply IH.
      * by apply sublist_app.
      * by apply keys_apart_snoc.
      * intros v Hv. apply elem_of_app in Hv as [Hv | Hv].
        -- destruct (Hcov v Hv) as (u & Hu & Hk).
           exists u. split; [|done]. apply elem_of_app. by left.
        -- apply list_elem_of_singleton in Hv as ->.
           exists w. split; [|by left]. apply elem_of_app. right. by constructor.
Qed.

Lemma same_key_refl (v : vec3 N) : minkowski.same_key v v = true.
Proof.
  unfold minkowski.same_key, nsame_text.
  by destruct (nsame (c0 v) (c0 v)), (nsame (c1 v) (c1 v)), (nsame (c2 v) (c2 v)).
Qed.

Lemma first_occurrences_of_enough (n m : nat) (vs : list (vec3 N)) :
  length vs <= n -> length vs <= m ->
  notions.first_occurrences_of n vs = notions.first_occurrences_of m vs.
Proof.
  revert m vs. induction n as [|n IH]; intros [|m] [|v rest]; simpl;
    try done; try lia.
  intros Hn Hm. f_equal.
  pose proof (kept_length_le (fun w => negb (minkowski.same_key w v)) rest).
  apply IH; lia.
Qed.

(** The order of first occurrence, vertex by vertex. *)
Lemma first_occurrences_cons (v : vec3 N) (rest : list (vec3 N)) :
  notions.first_occurrences (v :: rest)
  = v :: notions.first_occurrences
           (List.filter (fun w => negb (minkowski.same_key w v)) rest).
Proof.
  unfold notions.first_occurrences. simpl. f_equal.
  pose proof (kept_length_le (fun w => negb (minkowski.same_key w v)) rest).
  apply first_occurrences_of_enough; lia.
Qed.

Lemma kept_after_push (acc vs : list (vec3 N)) (v : vec3 N) :
  List.filter (fun w => negb (existsb (minkowski.same_key w) (acc ++ [v]))) vs
  = List.filter (fun w => negb (minkowski.same_key w v))
      (List.filter (fun w => negb (existsb (minkowski.same_key w) acc)) vs).
Proof.
  induction vs as [|w vs IH]; simpl; [done|].
  rewrite existsb_app. simpl. rewrite orb_false_r.
  destruct (existsb (minkowski.same_key w) acc); simpl; [done|].
  destruct (minkowski.same_key w v); simpl; [done|]. by f_equal.
Qed.

(** The loop of extractUniqueVertices appends, to the vertices it has, the
    first occurrences among the vertices to come that have none of their
    keys. *)
Lemma push_first_occurrences (vs acc : list (vec3 N)) :
  fold_left push_unique vs acc
  = acc ++ notions.first_occurrences
             (List.filter (fun w => negb (existsb (minkowski.same_key w) acc)) vs).
Proof.
  revert acc. induction vs as [|v vs IH]; intros acc; simpl.
  - by rewrite app_nil_r.
  - destruct (existsb (minkowski.same_key v) acc) eqn:Hv; simpl; [apply IH|].
    rewrite IH, first_occurrences_cons, <- app_assoc. simpl. do 3 f_equal.
    apply kept_after_push.
Qed.

(** X1: the vertices extractUniqueVertices returns are the vertices of the
    geometry in the order of their first occurrence: the first vertex,
    then the first occurrences among the later vertices with another key.
    So they are vertices of the geometry, in its order; no two of them
    have the same key; and every vertex of the geometry has the key of one
    of them. *)
Theorem extractUniqueVertices_unique (geometry : list (poly3 N)) :
  let all := flat_map vertices geometry in
  let unique := minkowski.extractUniqueVertices geometry in
  unique = notions.first_occurrences all /\
  unique `sublist_of` all /\
  keys_apart unique /\
  (forall v, v ∈ all -> exists u, u ∈ unique /\ minkowski.same_key v u = true).
Proof.
  unfold minkowski.extractUniqueVertices.
  split.
  { rewrite push_first_occurrences. simpl. f_equal.
    induction (flat_map vertices geometry) as [|v vs IH]; simpl; [done|].
    by rewrite IH. }
  destruct (unique_fold (flat_map vertices geometry) [] []) as (Hsub & Hkeys & Hcov).
  - done.
  - constructor.
  - intros v Hv. by apply elem_of_nil in Hv.
  - simpl in *. split; [done|]. split; [done|].
    intros v Hv. destruct (Hcov v Hv) as (u & Hu & [-> | Hk]).
    + exists v. split; [done | apply same_key_refl].
    + by exists u.
Qed.

Lemma extractUniqueVertices_empty :
  minkowski.extractUniqueVertices (N:=N) [] = [].
Proof. reflexivity. Qed.

End UniqueVertices.

(** ** The parts of the Minkowski sum *)

Section MinkowskiParts.
Context {N : Type} `{JsNum N}.
Variable isConvex : minkowski.geom3 (N:=N) -> bool.
Variable hullPoints3 : list (vec3 N) -> outcome (list (poly3 N)).
Variable union : list (minkowski.geom3 (N:=N)) -> outcome (minkowski.geom3 (N:=N)).

Abbreviation sumConvex := (minkowski.minkowskiSumConvex hullPoints3).
Abbreviation sumNonConvexConvex :=
  (minkowski.minkowskiSumNonConvexConvex hullPoints3 union).
Abbreviation sum := (minkowski.minkowskiSum isConvex hullPoints3 union).

(** The points whose hull minkowskiSumConvex takes. *)
Abbreviation summed :=
  (fun pointsA pointsB : list (vec3 N) =>
     flat_map (fun a => map (notions.point_sum a) pointsB) pointsA).

Lemma summed_length (pointsA pointsB : list (vec3 N)) :
  length (summed pointsA pointsB) = length pointsA * length pointsB.
Proof.
  induction pointsA as [|a pointsA IH]; simpl; [done|].
  by rewrite length_app, length_map, IH.
Qed.

Lemma summed_elem (pointsA pointsB : list (vec3 N)) (s : vec3 N) :
  s ∈ summed pointsA pointsB <->
  exists a b, a ∈ pointsA /\ b ∈ pointsB /\ s = notions.point_sum a b.
Proof.
  rewrite list_elem_of_In, in_flat_map. split.
  - intros (a & Ha & Hs). apply in_map_iff in Hs as (b & <- & Hb).
    exists a, b. by rewrite !list_elem_of_In.
  - intros (a & b & Ha & Hb & ->). exists a.
    rewrite list_elem_of_In in Ha, Hb. split; [done|].
    apply in_map_iff. by exists b.
Qed.

(** A hull that is asked for is an event, however the call ends. *)
Lemma call_hullPoints3_run (points : list (vec3 N)) :
  minkowski.call_hullPoints3 hullPoints3 points
  = ([minkowski.HullConstruction points], hullPoints3 points).
Proof. unfold minkowski.call_hullPoints3. simpl. by destruct (hullPoints3 points). Qed.

Lemma call_union_run (parts : list (list (poly3 N))) :
  minkowski.call_union union parts
  = ([minkowski.UnionConstruction parts], union parts).
Proof. unfold minkowski.call_union. simpl. by destruct (union parts). Qed.

(** How minkowskiSumConvex ends, whatever the operands are. *)
Lemma sumConvex_cases (geomA geomB : list (poly3 N)) :
  let pointsA := minkowski.extractUniqueVertices geomA in
  let pointsB := minkowski.extractUniqueVertices geomB in
  ((pointsA = [] \/ pointsB = []) /\
   sumConvex geomA geomB = ([minkowski.GeometryConstruction []], Returned [])) \/
  (pointsA <> [] /\ pointsB <> [] /\
   sumConvex geomA geomB
   = match hullPoints3 (summed pointsA pointsB) with
     | Returned hull =>
         ([minkowski.HullConstruction (summed pointsA pointsB);
           minkowski.GeometryConstruction hull],
          Returned hull)
     | Thrown message =>
         ([minkowski.HullConstruction (summed pointsA pointsB)], Thrown message)
     end).
Proof.
  intros pointsA pointsB. unfold minkowski.minkowskiSumConvex.
  fold pointsA pointsB.
  destruct pointsA as [|a pointsA]; [left; by split; [left|]|].
  destruct pointsB as [|b pointsB]; [left; by split; [right|]|].
  right. split; [done|]. split; [done|].
  change (minkowski.bind
            (minkowski.call_hullPoints3 hullPoints3
               (summed (a :: pointsA) (b :: pointsB)))
            minkowski.geom3_create
          = match hullPoints3 (summed (a :: pointsA) (b :: pointsB)) with
            | Returned hull =>
                ([minkowski.HullConstruction (summed (a :: pointsA) (b :: pointsB));
                  minkowski.GeometryConstruction hull],
                 Returned hull)
            | Thrown message =>
                ([minkowski.HullConstruction (summed (a :: pointsA) (b :: pointsB))],
                 Thrown message)
            end).
  rewrite call_hullPoints3_run.
  by destruct (hullPoints3 (summed (a :: pointsA) (b :: pointsB))).
Qed.

(** X2: minkowskiSumConvex returns the empty geometry, without asking for
    any hull, when an operand has no vertices; otherwise it asks for one
    hull, of the sums of every unique vertex of the first operand with
    every unique vertex of the second. When hullPoints3 returns, it
    returns the geometry of that hull; when hullPoints3 throws, it throws
    the same error and constructs no geometry. *)
Theorem minkowskiSumConvex_hull_of_sums (geomA geomB : list (poly3 N)) :
  let pointsA := minkowski.extractUniqueVertices geomA in
  let pointsB := minkowski.extractUniqueVertices geomB in
  (pointsA = [] \/ pointsB = [] ->
   sumConvex geomA geomB = ([minkowski.GeometryConstruction []], Returned [])) /\
  (pointsA <> [] -> pointsB <> [] ->
   exists sums,
     length sums = length pointsA * length pointsB /\
     (forall s, s ∈ sums <->
        exists a b, a ∈ pointsA /\ b ∈ pointsB /\ s = notions.point_sum a b) /\
     (forall hull, hullPoints3 sums = Returned hull ->
        sumConvex geomA geomB
        = ([minkowski.HullConstruction sums; minkowski.GeometryConstruction hull],
           Returned hull)) /\
     (forall message, hullPoints3 sums = Thrown message ->
        sumConvex geomA geomB
        = ([minkowski.HullConstruction sums], Thrown message))).
Proof.
  intros pointsA pointsB. subst pointsA pointsB.
  pose proof (sumConvex_cases geomA geomB) as Hcases. cbv zeta in Hcases.
  destruct Hcases as [(Hempty & Hrun) | (HA & HB & Hrun)].
  - split; [done|]. intros HA HB. by destruct Hempty.
  - split; [intros [? | ?]; done|]. intros _ _.
    eexists. split; [apply summed_length|]. split; [apply summed_elem|].
    split; [intros hull Hhull | intros message Hhull];
      by rewrite Hrun, Hhull.
Qed.

(** minkowskiSumConvex never asks for a union, and an error it throws is
    the error of the hull it asked for. *)
Lemma sumConvex_no_union (geomA geomB : list (poly3 N)) :
  Forall (fun e => notions.is_union e = false) (sumConvex geomA geomB).1.
Proof.
  pose proof (sumConvex_cases geomA geomB) as Hcases. cbv zeta in Hcases.
  destruct Hcases as [(_ & ->) | (_ & _ & ->)]; [repeat constructor|].
  destruct (hullPoints3 _); repeat constructor.
Qed.

Lemma sumConvex_thrown (geomA geomB : list (poly3 N))
    (events : list minkowski.event) (message : string) :
  sumConvex geomA geomB = (events, Thrown message) ->
  exists points,
    minkowski.HullConstruction points ∈ events /\
    hullPoints3 points = Thrown message.
Proof.
  pose proof (sumConvex_cases geomA geomB) as Hcases. cbv zeta in Hcases.
  destruct Hcases as [(_ & ->) | (_ & _ & ->)]; [done|].
  destruct (hullPoints3 _) as [hull | m] eqn:Hhull; [done|].
  intros [= <- <-]. eexists. split; [|exact Hhull]. by constructor.
Qed.

(** Rearranging a list that is given element by element: the head of the
    left list is looked up in the right one. *)
Ltac split_at x r acc :=
  lazymatch r with
  | x :: ?rest => constr:((acc, rest))
  | ?y :: ?rest => split_at x rest (y :: acc)
  end.

Ltac permute :=
  repeat lazymatch goal with
         | |- Permutation [] [] => apply perm_nil
         | |- Permutation (?x :: ?l) ?r =>
             let T := type of x in
             let found := split_at x r (@nil T) in
             lazymatch found with
             | (?acc, ?rest) =>
                 let pre := eval simpl in (rev acc) in
                 apply (@Permutation_cons_app T l pre rest x); simpl
             end
         end.

(** X3: the four faces createTetrahedronPolygons makes are triangles that
    close a surface with one winding: the directed edges of the faces are,
    each exactly as often, the opposites of the directed edges of the
    faces. *)
Theorem tetrahedron_closed (p0 p1 p2 p3 : vec3 N) :
  let faces := minkowski.createTetrahedronPolygons p0 p1 p2 p3 in
  length faces = 4 /\
  Forall (fun face => length (vertices face) = 3) faces /\
  Permutation (notions.surface_edges faces)
              (map notions.opposite (notions.surface_edges faces)).
Proof.
  simpl. split; [done|]. split; [repeat constructor|].
  unfold notions.surface_edges, notions.opposite. simpl. permute.
Qed.

Lemma tetrahedron_faces (p0 p1 p2 p3 : vec3 N) :
  length (minkowski.createTetrahedronPolygons p0 p1 p2 p3) = 4 /\
  Forall (fun face => length (vertices face) = 3)
         (minkowski.createTetrahedronPolygons p0 p1 p2 p3).
Proof. split; [done | repeat constructor]. Qed.

Lemma mapM_returns {A B : Type} (f : A -> minkowski.comp (N:=N) B)
    (events : A -> list (minkowski.event (N:=N))) (result : A -> B) (l : list A) :
  (forall a, f a = (events a, Returned (result a))) ->
  minkowski.mapM f l = (flat_map events l, Returned (map result l)).
Proof.
  intros Hf. induction l as [|a l IH]; simpl; [done|].
  rewrite Hf, IH. simpl. by rewrite app_nil_r.
Qed.

Lemma fan_length (vs : list (vec3 N)) :
  length (minkowski.fan vs) = length vs - 2.
Proof.
  destruct vs as [|v0 [|v1 rest]]; [done | done |].
  unfold minkowski.fan. rewrite length_zip_with. cbn [length tail]. lia.
Qed.

Lemma fans_length (geometry : list (poly3 N)) :
  length (flat_map (fun p => minkowski.fan (vertices p)) geometry)
  = notions.fan_count geometry.
Proof.
  unfold notions.fan_count.
  induction geometry as [|p geometry IH]; simpl; [done|].
  by rewrite length_app, fan_length, IH.
Qed.

(** The tetrahedra of a geometry. *)
Abbreviation tetrahedra_of :=
  (fun geometry : list (poly3 N) =>
     map (fun '(v0, v1, v2) =>
            minkowski.createTetrahedronPolygons
              (minkowski.computeCentroid geometry) v0 v1 v2)
         (flat_map (fun p => minkowski.fan (vertices p)) geometry)).

Lemma decompose_run (geometry : list (poly3 N)) :
  minkowski.decomposeIntoTetrahedra geometry
  = (map minkowski.GeometryConstruction (tetrahedra_of geometry),
     Returned (tetrahedra_of geometry)).
Proof.
  unfold minkowski.decomposeIntoTetrahedra.
  destruct geometry as [|p geometry]; [reflexivity|].
  set (g := p :: geometry).
  rewrite (mapM_returns _
             (fun '(v0, v1, v2) =>
                [minkowski.GeometryConstruction
                   (minkowski.createTetrahedronPolygons
                      (minkowski.computeCentroid g) v0 v1 v2)])
             (fun '(v0, v1, v2) =>
                minkowski.createTetrahedronPolygons
                  (minkowski.computeCentroid g) v0 v1 v2)).
  - f_equal. induction (flat_map (fun p => minkowski.fan (vertices p)) g)
      as [|[[v0 v1] v2] l IH]; simpl; [done|]. by rewrite IH.
  - by intros [[v0 v1] v2].
Qed.

(** X4: decomposeIntoTetrahedra never throws; it constructs one
    tetrahedron for each triangle of the fans of the polygons, that is
    (number of vertices - 2) for each polygon of at least 3 vertices, and
    every tetrahedron has 4 triangular faces. *)
Theorem decomposeIntoTetrahedra_count (geometry : list (poly3 N)) :
  exists tetrahedra,
    minkowski.decomposeIntoTetrahedra geometry
    = (map minkowski.GeometryConstruction tetrahedra, Returned tetrahedra) /\
    length tetrahedra = notions.fan_count geometry /\
    Forall (fun tet => length tet = 4 /\
                       Forall (fun face => length (vertices face) = 3) tet)
           tetrahedra.
Proof.
  exists (tetrahedra_of geometry). split; [apply decompose_run|].
  split; [by rewrite length_map, fans_length|].
  apply Forall_map, Forall_forall. intros [[v0 v1] v2] _.
  apply tetrahedron_faces.
Qed.

(** Running a step on every element of a list, in order: when every step
    returns, and when one throws. *)
Lemma mapM_all_return {A B : Type} (f : A -> minkowski.comp (N:=N) B)
    (l : list A) (bs : list B) :
  Forall2 (fun a b => (f a).2 = Returned b) l bs ->
  minkowski.mapM f l = (flat_map (fun a => (f a).1) l, Returned bs).
Proof.
  induction 1 as [|a b l bs Hab _ IH]; simpl; [done|].
  destruct (f a) as [t r]. simpl in *. subst r.
  rewrite IH. simpl. by rewrite app_nil_r.
Qed.

Lemma mapM_first_throw {A B : Type} (f : A -> minkowski.comp (N:=N) B)
    (pre : list A) (a : A) (post : list A) (message : string) :
  Forall (fun x => exists b, (f x).2 = Returned b) pre ->
  (f a).2 = Thrown message ->
  minkowski.mapM f (pre ++ a :: post)
  = (flat_map (fun x => (f x).1) (pre ++ [a]), Thrown message).
Proof.
  intros Hpre Ha. induction Hpre as [|x pre (b & Hx) _ IH]; simpl.
  - destruct (f a) as [t r]. simpl in *. subst r. simpl. by rewrite app_nil_r.
  - destruct (f x) as [t r]. simpl in *. subst r. by rewrite IH.
Qed.

Lemma mapM_thrown {A B : Type} (f : A -> minkowski.comp (N:=N) B)
    (l : list A) (events : list minkowski.event) (message : string) :
  minkowski.mapM f l = (events, Thrown message) ->
  exists a ta, a ∈ l /\ f a = (ta, Thrown message) /\
               forall e, e ∈ ta -> e ∈ events.
Proof.
  revert events. induction l as [|a l IH]; intros events; simpl; [done|].
  destruct (f a) as [t [b | m]] eqn:Hfa; simpl.
  - destruct (minkowski.mapM f l) as [t' [bs | m']] eqn:Hl; simpl; [done|].
    intros [= <- <-].
    destruct (IH t' eq_refl) as (x & tx & Hx & Hfx & Hin).
    exists x, tx. split; [by apply elem_of_cons; right|]. split; [done|].
    intros e He. apply elem_of_app. right. by apply Hin.
  - intros [= <- <-]. exists a, t. split; [by constructor|]. by split.
Qed.

(** How minkowskiSumNonConvexConvex goes on once it has the tetrahedra. *)
Abbreviation after_decomposition :=
  (fun (geomB : list (poly3 N)) (tets : list (list (poly3 N))) =>
     minkowski.bind
       (map minkowski.GeometryConstruction tets, Returned tets)
       (fun tetrahedra =>
          match tetrahedra with
          | [] => minkowski.geom3_create []
          | _ =>
              minkowski.bind
                (minkowski.mapM (fun tet => sumConvex tet geomB) tetrahedra)
                (fun parts =>
                   match parts with
                   | [part] => minkowski.ret part
                   | _ => minkowski.call_union union parts
                   end)
          end)).

Lemma sumNonConvexConvex_unfold (geomA geomB : list (poly3 N)) :
  sumNonConvexConvex geomA geomB = after_decomposition geomB (tetrahedra_of geomA).
Proof.
  unfold minkowski.minkowskiSumNonConvexConvex. by rewrite decompose_run.
Qed.

Lemma after_none (geomB : list (poly3 N)) :
  after_decomposition geomB [] = ([minkowski.GeometryConstruction []], Returned []).
Proof. reflexivity. Qed.

Lemma after_one (geomB tet : list (poly3 N)) :
  after_decomposition geomB [tet]
  = (minkowski.GeometryConstruction tet :: (sumConvex tet geomB).1,
     (sumConvex tet geomB).2).
Proof.
  simpl. destruct (sumConvex tet geomB) as [t [part | message]]; simpl; [|done].
  by rewrite !app_nil_r.
Qed.

Lemma after_all_return (geomB : list (poly3 N))
    (tets parts : list (list (poly3 N))) :
  2 <= length tets ->
  Forall2 (fun tet part => (sumConvex tet geomB).2 = Returned part) tets parts ->
  after_decomposition geomB tets
  = (map minkowski.GeometryConstruction tets
       ++ flat_map (fun tet => (sumConvex tet geomB).1) tets
       ++ [minkowski.UnionConstruction parts],
     union parts).
Proof.
  intros Hlen Hparts.
  pose proof (Forall2_length _ _ _ Hparts) as Hsame.
  pose proof (mapM_all_return (fun tet => sumConvex tet geomB) tets parts Hparts)
    as Hrun.
  destruct tets as [|tet [|tet' tets]]; simpl in Hlen; [lia | lia |].
  destruct parts as [|part [|part' parts]]; simpl in Hsame; [lia | lia |].
  unfold minkowski.bind at 1. rewrite Hrun.
  unfold minkowski.bind. rewrite call_union_run.
  by destruct (union (part :: part' :: parts)).
Qed.

Lemma after_first_throw (geomB : list (poly3 N))
    (pre : list (list (poly3 N))) (tet : list (poly3 N))
    (post : list (list (poly3 N))) (message : string) :
  Forall (fun t => exists part, (sumConvex t geomB).2 = Returned part) pre ->
  (sumConvex tet geomB).2 = Thrown message ->
  after_decomposition geomB (pre ++ tet :: post)
  = (map minkowski.GeometryConstruction (pre ++ tet :: post)
       ++ flat_map (fun t => (sumConvex t geomB).1) (pre ++ [tet]),
     Thrown message).
Proof.
  intros Hpre Htet.
  pose proof (mapM_first_throw (fun t => sumConvex t geomB) pre tet post message
                Hpre Htet) as Hrun.
  destruct pre as [|first pre]; unfold minkowski.bind at 1;
    cbn beta iota; cbn [app] in *; unfold minkowski.geom3 in *; by rewrite Hrun.
Qed.

(** X5: minkowskiSumNonConvexConvex sums the tetrahedra of the first
    operand with the second, in order. With no tetrahedron it returns the
    empty geometry. With one it ends as the sum of that tetrahedron ends,
    returning its result or throwing its error, and union is not asked
    for. With two or more: when every sum returns, union is asked for
    once, last, with the parts in order, and the operation ends as union
    ends; when a sum throws, the later sums are not computed, union is not
    asked for and that error is thrown. No sum asks for a union. *)
Theorem minkowskiSumNonConvexConvex_union (geomA geomB : list (poly3 N)) :
  exists tetrahedra,
    minkowski.decomposeIntoTetrahedra geomA
    = (map minkowski.GeometryConstruction tetrahedra, Returned tetrahedra) /\
    length tetrahedra = notions.fan_count geomA /\
    (forall tet, Forall (fun e => notions.is_union e = false) (sumConvex tet geomB).1) /\
    (tetrahedra = [] ->
     sumNonConvexConvex geomA geomB
     = ([minkowski.GeometryConstruction []], Returned [])) /\
    (forall tet, tetrahedra = [tet] ->
     sumNonConvexConvex geomA geomB
     = (minkowski.GeometryConstruction tet :: (sumConvex tet geomB).1,
        (sumConvex tet geomB).2)) /\
    (forall parts,
       2 <= length tetrahedra ->
       Forall2 (fun tet part => (sumConvex tet geomB).2 = Returned part)
               tetrahedra parts ->
       sumNonConvexConvex geomA geomB
       = (map minkowski.GeometryConstruction tetrahedra
            ++ flat_map (fun tet => (sumConvex tet geomB).1) tetrahedra
            ++ [minkowski.UnionConstruction parts],
          union parts)) /\
    (forall pre tet post message,
       tetrahedra = pre ++ tet :: post ->
       Forall (fun t => exists part, (sumConvex t geomB).2 = Returned part) pre ->
       (sumConvex tet geomB).2 = Thrown message ->
       sumNonConvexConvex geomA geomB
       = (map minkowski.GeometryConstruction tetrahedra
            ++ flat_map (fun t => (sumConvex t geomB).1) (pre ++ [tet]),
          Thrown message)).
Proof.
  exists (tetrahedra_of geomA). split; [apply decompose_run|].
  split; [by rewrite length_map, fans_length|].
  split; [intros tet; apply sumConvex_no_union|].
  rewrite sumNonConvexConvex_unfold.
  split; [intros ->; apply after_none|].
  split; [intros tet ->; apply after_one|].
  split; [intros parts Hlen Hparts; by apply after_all_return|].
  intros pre tet post message -> Hpre Htet. by apply after_first_throw.
Qed.

(** An error of minkowskiSumNonConvexConvex is the error of a hull or of
    the union it asked for. *)
Lemma after_thrown (geomB : list (poly3 N)) (tetrahedra : list (list (poly3 N)))
    (events : list minkowski.event) (message : string) :
  after_decomposition geomB tetrahedra = (events, Thrown message) ->
  (exists points,
     minkowski.HullConstruction points ∈ events /\
     hullPoints3 points = Thrown message) \/
  (exists parts,
     minkowski.UnionConstruction parts ∈ events /\
     union parts = Thrown message).
Proof.
  unfold minkowski.bind at 1.
  destruct tetrahedra as [|tet tets]; [by simpl|].
  set (all := tet :: tets).
  destruct (minkowski.mapM (fun t => sumConvex t geomB) all)
    as [t [parts | m]] eqn:Hrun; simpl.
  - assert (match parts with
            | [part] => minkowski.ret part
            | _ => minkowski.call_union union parts
            end = (match parts with
                   | [part] => []
                   | _ => [minkowski.UnionConstruction parts]
                   end,
                   match parts with
                   | [part] => Returned part
                   | _ => union parts
                   end)) as ->.
    { destruct parts as [|part [|part' parts]]; by rewrite ?call_union_run. }
    intros [= <- Hend]. right. exists parts.
    destruct parts as [|part [|part' parts]]; [|done|]; (split; [|done]);
      apply elem_of_cons; right; rewrite !elem_of_app; right; right;
      by constructor.
  - intros [= <- <-]. left.
    destruct (mapM_thrown _ _ _ _ Hrun) as (a & ta & _ & Ha & Hin).
    destruct (sumConvex_thrown _ _ _ _ Ha) as (points & Hpoints & Hhull).
    exists points. split; [|done].
    apply elem_of_cons. right. apply elem_of_app. right. by apply Hin.
Qed.

Lemma sumNonConvexConvex_thrown (geomA geomB : list (poly3 N))
    (events : list minkowski.event) (message : string) :
  sumNonConvexConvex geomA geomB = (events, Thrown message) ->
  (exists points,
     minkowski.HullConstruction points ∈ events /\
     hullPoints3 points = Thrown message) \/
  (exists parts,
     minkowski.UnionConstruction parts ∈ events /\
     union parts = Thrown message).
Proof. rewrite sumNonConvexConvex_unfold. apply after_thrown. Qed.

(** What minkowskiSum does with two geometries, once their convexity is
    known. *)
Lemma sum_of_geometries (args : list minkowski.value) (geomA geomB : list (poly3 N)) :
  minkowski.flatten args = [minkowski.Geom geomA; minkowski.Geom geomB] ->
  sum args
  = minkowski.bind
      ([minkowski.ConvexityAnalysis geomA; minkowski.ConvexityAnalysis geomB],
       Returned tt)
      (fun _ =>
         if isConvex geomA && isConvex geomB then sumConvex geomA geomB
         else if negb (isConvex geomA) && isConvex geomB
              then sumNonConvexConvex geomA geomB
         else if isConvex geomA && negb (isConvex geomB)
              then sumNonConvexConvex geomB geomA
         else minkowski.throw
                "minkowskiSum of two non-convex geometries is not yet supported").
Proof.
  intros Hflat. unfold minkowski.minkowskiSum. rewrite Hflat. simpl.
  destruct (isConvex geomA), (isConvex geomB); simpl;
    repeat match goal with
           | |- context [sumConvex ?a ?b] => destruct (sumConvex a b) as [? []]
           | |- context [sumNonConvexConvex ?a ?b] =>
               destruct (sumNonConvexConvex a b) as [? []]
           end; reflexivity.
Qed.

(** X6: an error of minkowskiSum is either one of its own four, thrown
    before anything is constructed and after at most the two convexity
    analyses, or the error of a hull or of a union that it asked for,
    passed on as it is. *)
Theorem minkowskiSum_errors (args : list minkowski.value)
    (events : list minkowski.event) (message : string) :
  sum args = (events, Thrown message) ->
  (message ∈ notions.own_messages /\
   Forall (fun e => notions.is_construction e = false) events /\
   length events <= 2) \/
  (exists points,
     minkowski.HullConstruction points ∈ events /\
     hullPoints3 points = Thrown message) \/
  (exists parts,
     minkowski.UnionConstruction parts ∈ events /\
     union parts = Thrown message).
Proof.
  unfold minkowski.minkowskiSum, notions.own_messages.
  destruct (length (minkowski.flatten args) <? 2);
    [intros [= <- <-]; left; split; [set_solver | split; [constructor | simpl; lia]]|].
  destruct (2 <? length (minkowski.flatten args));
    [intros [= <- <-]; left; split; [set_solver | split; [constructor | simpl; lia]]|].
  destruct (negb _ || negb _);
    [intros [= <- <-]; left; split; [set_solver | split; [constructor | simpl; lia]]|].
  set (geomA := minkowski.toPolygons _). set (geomB := minkowski.toPolygons _).
  simpl.
  pose proof (sumConvex_thrown geomA geomB) as H1.
  pose proof (sumNonConvexConvex_thrown geomA geomB) as H2.
  pose proof (sumNonConvexConvex_thrown geomB geomA) as H3.
  destruct (isConvex geomA), (isConvex geomB); simpl.
  - destruct (sumConvex geomA geomB) as [t [r | m]]; simpl; [done|].
    intros [= <- <-]. right. left.
    destruct (H1 t m eq_refl) as (points & Hin & Hhull).
    exists points. split; [|done]. by do 2 (apply elem_of_cons; right).
  - destruct (sumNonConvexConvex geomB geomA) as [t [r | m]]; simpl; [done|].
    intros [= <- <-]. right.
    destruct (H3 t m eq_refl) as [(x & Hin & Hx) | (x & Hin & Hx)];
      [left | right]; exists x; (split; [|done]);
      by do 2 (apply elem_of_cons; right).
  - destruct (sumNonConvexConvex geomA geomB) as [t [r | m]]; simpl; [done|].
    intros [= <- <-]. right.
    destruct (H2 t m eq_refl) as [(x & Hin & Hx) | (x & Hin & Hx)];
      [left | right]; exists x; (split; [|done]);
      by do 2 (apply elem_of_cons; right).
  - intros [= <- <-]. left.
    split; [set_solver | split; [repeat constructor | simpl; lia]].
Qed.

(** X7: the sum with a geometry that has no polygons, the other operand
    being convex, is the empty geometry; no hull is taken and union is not
    called. *)
Theorem minkowskiSum_empty_operand (args : list minkowski.value)
    (geomA geomB : list (poly3 N)) :
  minkowski.flatten args = [minkowski.Geom geomA; minkowski.Geom geomB] ->
  (geomA = [] /\ isConvex geomB = true) \/ (geomB = [] /\ isConvex geomA = true) ->
  sum args
  = ([minkowski.ConvexityAnalysis geomA; minkowski.ConvexityAnalysis geomB;
      minkowski.GeometryConstruction []],
     Returned []).
Proof.
  intros Hflat Hempty. rewrite (sum_of_geometries args geomA geomB Hflat).
  destruct Hempty as [(-> & HB) | (-> & HA)].
  - rewrite HB. by destruct (isConvex []).
  - rewrite HA. destruct (isConvex []); simpl; [|done].
    unfold minkowski.minkowskiSumConvex. simpl.
    by destruct (minkowski.extractUniqueVertices geomA).
Qed.

(** X8: when exactly one of two geometries is convex, the order of the
    operands does not matter: minkowskiSum ends the same way and
    constructs the same things in the same order. *)
Theorem minkowskiSum_swap (geomA geomB : list (poly3 N)) :
  isConvex geomA <> isConvex geomB ->
  (sum [minkowski.Geom geomA; minkowski.Geom geomB]).2
  = (sum [minkowski.Geom geomB; minkowski.Geom geomA]).2 /\
  List.filter notions.is_construction (sum [minkowski.Geom geomA; minkowski.Geom geomB]).1
  = List.filter notions.is_construction (sum [minkowski.Geom geomB; minkowski.Geom geomA]).1.
Proof.
  intros Hne.
  rewrite (sum_of_geometries [minkowski.Geom geomA; minkowski.Geom geomB]
             geomA geomB eq_refl).
  rewrite (sum_of_geometries [minkowski.Geom geomB; minkowski.Geom geomA]
             geomB geomA eq_refl).
  destruct (isConvex geomA), (isConvex geomB); try done; simpl.
  - by destruct (sumNonConvexConvex geomB geomA) as [t r].
  - by destruct (sumNonConvexConvex geomA geomB) as [t r].
Qed.

End MinkowskiParts.

(** ** The sizes of the polygons of a store *)

Section Sizes.
Context {N : Type} `{JsNum N}.
Variable fromPoints : list (vec3 N) -> option (vec4 N).

Lemma create_object_sized (arg : option (list (vec3 N))) :
  notions.sized (vertices (poly3.create_object arg)).
Proof.
  unfold notions.sized, poly3.create_object.
  destruct arg as [vs|]; simpl; [|by left].
  destruct (length vs <? 3) eqn:Hlen; simpl; [by left|].
  apply Nat.ltb_ge in Hlen. by right.
Qed.

Lemma well_sized_alloc (o : poly3 N) (h : gmap loc (poly3 N)) :
  notions.sized (vertices o) ->
  notions.well_sized h -> notions.well_sized (alloc o h).2.
Proof.
  intros Ho Hh l o' Hl.
  destruct (alloc_spec o h) as (_ & Hnew & Hframe).
  destruct (decide (l = (alloc o h).1)) as [-> | Hne].
  - rewrite Hnew in Hl. by injection Hl as <-.
  - rewrite Hframe in Hl by done. by eapply Hh.
Qed.

Lemma run_call_well_sized (c : calls.call) (h h' : gmap loc (poly3 N)) :
  notions.sized_call c ->
  notions.well_sized h ->
  calls.run_call fromPoints c h = Some h' ->
  notions.well_sized h'.
Proof.
  intros Hc Hh. destruct c as [arg | vs pl | p | p | p]; simpl.
  - intros [= <-]. apply well_sized_alloc; [apply create_object_sized | done].
  - intros [= <-]. by apply well_sized_alloc.
  - destruct (poly3.invert p h) as [[inverted h1]|] eqn:Hinv; [|done].
    intros [= <-]. simpl.
    assert (exists q, h !! p = Some q) as (q & Hq).
    { unfold poly3.invert in Hinv. destruct (h !! p); [eauto | done]. }
    destruct (invert_result p q h Hq) as (i & h2 & Hi & _ & Hnew & Hframe).
    rewrite Hi in Hinv. injection Hinv as <- <-.
    intros l o Hl. destruct (decide (l = i)) as [-> | Hne].
    + rewrite Hnew in Hl. injection Hl as <-. simpl.
      unfold notions.sized.
      destruct (length (vertices q) <? 3) eqn:Hlen; simpl; [by left|].
      apply Nat.ltb_ge in Hlen. right. by rewrite length_rev.
    + rewrite Hframe in Hl by done. by eapply Hh.
  - destruct (measure.measureBoundingSphere p h) as [[s h1]|] eqn:Hm; [|done].
    intros [= <-]. intros l o Hl.
    assert (exists o0, h !! l = Some o0) as (o0 & Hl0).
    { unfold measure.measureBoundingSphere in Hm.
      destruct (h !! p) as [q|] eqn:Hq; [|done].
      destruct (boundingSphere q); [injection Hm as <- <-; eauto|].
      destruct (vertices q); [injection Hm as <- <-; eauto|].
      injection Hm as <- <-.
      destruct (decide (l = p)) as [-> | Hne]; [eauto|].
      rewrite lookup_insert_ne in Hl by done. eauto. }
    destruct (measure_evolves fromPoints p l o0 s h h1 Hl0 Hm) as (o' & Hl' & Hv & _).
    assert (o' = o) as -> by congruence.
    unfold notions.sized. rewrite Hv. by apply (Hh l o0).
  - destruct (calls.plane fromPoints p h) as [[r h1]|] eqn:Hm; [|done].
    intros [= <-]. intros l o Hl.
    assert (exists o0, h !! l = Some o0) as (o0 & Hl0).
    { unfold calls.plane in Hm.
      destruct (h !! p) as [q|] eqn:Hq; [|done].
      destruct (plane_field q); [injection Hm as <- <-; eauto|].
      destruct (fromPoints (vertices q)); [|injection Hm as <- <-; eauto].
      injection Hm as <- <-.
      destruct (decide (l = p)) as [-> | Hne]; [eauto|].
      rewrite lookup_insert_ne in Hl by done. eauto. }
    destruct (plane_evolves fromPoints p l o0 r h h1 Hl0 Hm) as (o' & Hl' & Hv & _).
    assert (o' = o) as -> by congruence.
    unfold notions.sized. rewrite Hv. by apply (Hh l o0).
Qed.

(** X9: a polygon of 1 or 2 vertices can only come from
    fromPointsAndPlane: in a store built by calls of which none gives such
    a list to fromPointsAndPlane, every polygon has no vertices or at least
    3, also the polygons [invert] returns. *)
Theorem stores_well_sized (cs : list calls.call) (h : gmap loc (poly3 N)) :
  Forall notions.sized_call cs ->
  calls.run_calls fromPoints cs ∅ = Some h ->
  notions.well_sized h.
Proof.
  assert (forall h0 : gmap loc (poly3 N),
            notions.well_sized h0 ->
            Forall notions.sized_call cs ->
            calls.run_calls fromPoints cs h0 = Some h ->
            notions.well_sized h) as Hgen.
  { induction cs as [|c cs IH]; intros h0 Hh0 Hcs; simpl.
    - by intros [= <-].
    - destruct (calls.run_call fromPoints c h0) as [h1|] eqn:Hc; [|done].
      inversion Hcs as [|? ? Hhead Htail]; subst.
      apply IH; [|done]. by eapply run_call_well_sized. }
  apply Hgen. intros l o Hl. by rewrite lookup_empty in Hl.
Qed.

(** X11: measureBoundingSphere touches nothing but the [boundingSphere]
    field of the polygon it is given: every other object of the store, and
    the vertices and the plane of the polygon, are as they were. *)
Theorem measureBoundingSphere_frame (polygon : loc) (s : vec4 N)
    (h h' : gmap loc (poly3 N)) :
  measure.measureBoundingSphere polygon h = Some (s, h') ->
  (forall l, l <> polygon -> h' !! l = h !! l) /\
  exists p p',
    h !! polygon = Some p /\ h' !! polygon = Some p' /\
    vertices p' = vertices p /\ plane p' = plane p.
Proof.
  unfold measure.measureBoundingSphere.
  destruct (h !! polygon) as [p|] eqn:Hp; [|done].
  destruct (boundingSphere p) as [cached|] eqn:Hb.
  { intros [= <- <-]. split; [done|]. by exists p, p. }
  destruct (vertices p) as [|first rest] eqn:Hvs.
  { intros [= <- <-]. split; [done|]. by exists p, p. }
  intros [= <- <-]. split.
  - intros l Hl. by rewrite lookup_insert_ne.
  - eexists p, _. rewrite lookup_insert_eq. by repeat split.
Qed.

End Sizes.

(** ** Inverting a polygon twice *)

Section InvertTwice.

Lemma opp_involutive (x : float) : (- - x)%float = x.
Proof.
  apply Prim2SF_inj. rewrite !opp_spec.
  destruct (Prim2SF x); simpl; by rewrite ?negb_involutive.
Qed.

Lemma flip_flip (pl : vec4 float) : plane.flip (plane.flip pl) = pl.
Proof.
  destruct pl as [a b c d]. unfold plane.flip. simpl.
  by rewrite !opp_involutive.
Qed.

(** X10: in binary64, inverting a polygon of no or at least 3 vertices and
    inverting the result gives a third polygon with the vertices and the
    plane of the first, bit for bit; its bounding sphere is not carried
    over, and the first polygon is as it was. *)
Theorem invert_twice (polygon : loc) (p : poly3 float) (h : gmap loc (poly3 float)) :
  h !! polygon = Some p ->
  notions.sized (vertices p) ->
  exists inverted h1 again h2,
    poly3.invert polygon h = Some (inverted, h1) /\
    poly3.invert inverted h1 = Some (again, h2) /\
    h2 !! again = Some {| vertices := vertices p; plane := plane p;
                          boundingSphere := None |} /\
    h2 !! polygon = Some p.
Proof.
  intros Hp Hsized.
  destruct (invert_result polygon p h Hp)
    as (inverted & h1 & Hinv1 & Hfresh1 & Hnew1 & Hframe1).
  destruct (invert_result inverted _ h1 Hnew1)
    as (again & h2 & Hinv2 & Hfresh2 & Hnew2 & Hframe2).
  exists inverted, h1, again, h2. split; [done|]. split; [done|].
  assert (h1 !! polygon = Some p) as Hp1
    by (rewrite Hframe1; [done | congruence]).
  split.
  - rewrite Hnew2. simpl. f_equal. f_equal.
    + destruct Hsized as [Hzero | Hthree].
      * destruct (vertices p); [reflexivity | done].
      * apply Nat.ltb_ge in Hthree as Hlt. rewrite Hlt, length_rev, Hlt.
        apply rev_involutive.
    + destruct (plane p) as [pl|]; simpl; [|done]. by rewrite flip_flip.
  - rewrite Hframe2; [done | congruence].
Qed.

End InvertTwice.

(** ** The bounding sphere and the order of the vertices *)

Section SphereOrder.
Import ideal.
Local Open Scope R_scope.

Lemma extremes_same (first first' : vec3 R) (rest rest' : list (vec3 R)) :
  (forall v, v ∈ first :: rest <-> v ∈ first' :: rest') ->
  measure.sphere_of first rest = measure.sphere_of first' rest'.
Proof.
  intros Hsame.
  pose proof (extremes_of_picked first rest) as (A1 & A2 & A3 & A4 & A5 & A6).
  pose proof (extremes_of_picked first' rest') as (B1 & B2 & B3 & B4 & B5 & B6).
  unfold measure.sphere_of.
  set (e := measure.extremes_of first (first :: rest)) in *.
  set (e' := measure.extremes_of first' (first' :: rest')) in *.
  assert (forall v, v ∈ first :: rest -> boxed e v /\ boxed e' v) as Hbox.
  { intros v Hv. split; [by apply extremes_of_boxed|].
    apply extremes_of_boxed. by apply Hsame. }
  apply Hsame in B1, B2, B3, B4, B5, B6.
  destruct (Hbox _ A1) as (_ & (X1 & _ & _)).
  destruct (Hbox _ A2) as (_ & (_ & Y1 & _)).
  destruct (Hbox _ A3) as (_ & (_ & _ & Z1)).
  destruct (Hbox _ A4) as (_ & (X2 & _ & _)).
  destruct (Hbox _ A5) as (_ & (_ & Y2 & _)).
  destruct (Hbox _ A6) as (_ & (_ & _ & Z2)).
  destruct (Hbox _ B1) as ((X3 & _ & _) & _).
  destruct (Hbox _ B2) as ((_ & Y3 & _) & _).
  destruct (Hbox _ B3) as ((_ & _ & Z3) & _).
  destruct (Hbox _ B4) as ((X4 & _ & _) & _).
  destruct (Hbox _ B5) as ((_ & Y4 & _) & _).
  destruct (Hbox _ B6) as ((_ & _ & Z4) & _).
  assert (c0 (measure.minx e) = c0 (measure.minx e')) as -> by lra.
  assert (c0 (measure.maxx e) = c0 (measure.maxx e')) as -> by lra.
  assert (c1 (measure.miny e) = c1 (measure.miny e')) as -> by lra.
  assert (c1 (measure.maxy e) = c1 (measure.maxy e')) as -> by lra.
  assert (c2 (measure.minz e) = c2 (measure.minz e')) as -> by lra.
  assert (c2 (measure.maxz e) = c2 (measure.maxz e')) as -> by lra.
  reflexivity.
Qed.

(** X12: with numbers read as real numbers, a polygon of at least 3
    vertices and the polygon [invert] makes of it have the same bounding
    sphere: the sphere does not depend on the order of the vertices. *)
Theorem inverted_sphere (polygon : loc) (p : poly3 R) (h : gmap loc (poly3 R)) :
  calls.well_cached h ->
  h !! polygon = Some p ->
  (3 <= length (vertices p))%nat ->
  exists inverted h1 s h2 h3,
    poly3.invert polygon h = Some (inverted, h1) /\
    measure.measureBoundingSphere polygon h = Some (s, h2) /\
    measure.measureBoundingSphere inverted h1 = Some (s, h3).
Proof.
  intros Hcached Hp Hlen.
  destruct (invert_result polygon p h Hp)
    as (inverted & h1 & Hinv & Hfresh & Hnew & Hframe).
  apply Nat.ltb_ge in Hlen as Hlt. rewrite Hlt in Hnew.
  destruct (vertices p) as [|first rest] eqn:Hvs; [simpl in Hlen; lia|].
  destruct (rev (first :: rest)) as [|first' rest'] eqn:Hrev.
  { apply (f_equal length) in Hrev. rewrite length_rev in Hrev. done. }
  assert (measure.sphere_of first' rest' = measure.sphere_of first rest) as Hsame.
  { apply extremes_same. intros v. rewrite <- Hrev.
    rewrite !list_elem_of_In. symmetry. apply in_rev. }
  exists inverted, h1, (measure.sphere_of first rest).
  assert (exists h2, measure.measureBoundingSphere polygon h
                     = Some (measure.sphere_of first rest, h2)) as (h2 & Hm).
  { unfold measure.measureBoundingSphere. rewrite Hp.
    destruct (Hcached polygon p Hp) as [Hb | (f & r & Hfr & Hb)]; rewrite Hb.
    - rewrite Hvs. by eexists.
    - rewrite Hvs in Hfr. injection Hfr as <- <-. by eexists. }
  exists h2. eexists. split; [done|]. split; [done|].
  unfold measure.measureBoundingSphere. rewrite Hnew. simpl.
  by rewrite Hsame.
Qed.

End SphereOrder.

(** ** The centroid of a geometry *)

Section Centroid.
Import ideal.
Local Open Scope R_scope.

Lemma sum_bounds (f : vec3 R -> R) (lo hi : R) (vs : list (vec3 R)) (acc : R) :
  (forall v, v ∈ vs -> lo <= f v <= hi) ->
  acc + INR (length vs) * lo
  <= fold_left (fun acc v => nadd acc (f v)) vs acc
  <= acc + INR (length vs) * hi.
Proof.
  revert acc. induction vs as [|w vs IH]; intros acc Hvs.
  - simpl. lra.
  - cbn [fold_left length]. rewrite S_INR.
    assert (lo <= f w <= hi) as Hw by (apply Hvs; by left).
    assert (forall v, v ∈ vs -> lo <= f v <= hi) as Hrest
      by (intros v Hv; apply Hvs; by right).
    specialize (IH (nadd acc (f w)) Hrest). simpl in IH |- *. lra.
Qed.

Lemma mean_bounds (f : vec3 R -> R) (lo hi : R) (vs : list (vec3 R)) :
  vs <> [] ->
  (forall v, v ∈ vs -> lo <= f v <= hi) ->
  lo <= ndiv (fold_left (fun acc v => nadd acc (f v)) vs nzero)
             (nof_nat (length vs)) <= hi.
Proof.
  intros Hne Hvs.
  pose proof (sum_bounds f lo hi vs 0 Hvs) as Hsum.
  assert (0 < INR (length vs)) as Hn.
  { apply lt_0_INR. destruct vs; [done | simpl; lia]. }
  simpl. set (x := fold_left _ vs 0) in *. set (n := INR (length vs)) in *.
  clearbody x n. unfold Rdiv.
  assert (x * / n * n = x) as Hx by (field; lra).
  split; apply (Rmult_le_reg_r n); try done; rewrite Hx; lra.
Qed.

Lemma unique_vertices_of (geometry : list (poly3 R)) :
  (forall u, u ∈ minkowski.extractUniqueVertices geometry ->
             u ∈ flat_map vertices geometry) /\
  (flat_map vertices geometry <> [] ->
   minkowski.extractUniqueVertices geometry <> []).
Proof.
  pose proof (unique_fold (flat_map vertices geometry) [] []
                ltac:(done) ltac:(constructor)
                ltac:(intros v Hv; by apply elem_of_nil in Hv))
    as (Hsub & _ & Hcov).
  simpl in Hsub, Hcov. split.
  - intros u Hu. by eapply elem_of_sublist.
  - intros Hne.
    destruct (flat_map vertices geometry) as [|v all] eqn:Hall; [done|].
    destruct (Hcov v ltac:(by left)) as (u & Hu & _).
    intros Hempty. unfold minkowski.extractUniqueVertices in Hempty.
    rewrite Hall in Hempty. rewrite Hempty in Hu. by apply elem_of_nil in Hu.
Qed.

(** X13: with numbers read as real numbers, the centroid computeCentroid
    returns lies in every box that holds all the vertices of the geometry;
    for a geometry without vertices it is the origin. *)
Theorem computeCentroid_in_box (geometry : list (poly3 R)) (lo hi : vec3 R) :
  (forall v, v ∈ flat_map vertices geometry ->
     c0 lo <= c0 v <= c0 hi /\ c1 lo <= c1 v <= c1 hi /\ c2 lo <= c2 v <= c2 hi) ->
  (flat_map vertices geometry = [] ->
   minkowski.computeCentroid geometry = Vec3 0 0 0) /\
  (flat_map vertices geometry <> [] ->
   let c := minkowski.computeCentroid geometry in
   c0 lo <= c0 c <= c0 hi /\ c1 lo <= c1 c <= c1 hi /\ c2 lo <= c2 c <= c2 hi).
Proof.
  intros Hbox. destruct (unique_vertices_of geometry) as (Hsub & Hne).
  split.
  - intros Hempty. unfold minkowski.computeCentroid, minkowski.extractUniqueVertices.
    by rewrite Hempty.
  - intros Hall. specialize (Hne Hall). unfold minkowski.computeCentroid.
    set (vs := minkowski.extractUniqueVertices geometry) in *.
    assert (forall v, v ∈ vs -> c0 lo <= c0 v <= c0 hi) as H0
      by (intros v Hv; by apply Hbox, Hsub).
    assert (forall v, v ∈ vs -> c1 lo <= c1 v <= c1 hi) as H1
      by (intros v Hv; by apply Hbox, Hsub).
    assert (forall v, v ∈ vs -> c2 lo <= c2 v <= c2 hi) as H2
      by (intros v Hv; by apply Hbox, Hsub).
    pose proof (mean_bounds c0 _ _ vs Hne H0).
    pose proof (mean_bounds c1 _ _ vs Hne H1).
    pose proof (mean_bounds c2 _ _ vs Hne H2).
    destruct vs as [|v vs']; [done|]. cbv zeta. simpl c0. simpl c1. simpl c2.
    done.
Qed.

End Centroid.

(** ** Concrete runs of the further properties *)

Section MoreRuns.
Import runs more_runs.

Lemma minkowskiSumConvex_hull_of_sums_witness :
  ((minkowski.extractUniqueVertices (N:=float) [] = [] \/
    minkowski.extractUniqueVertices triangle_geometry = []) /\
   minkowski.minkowskiSumConvex hull_of_four [] triangle_geometry
   = ([minkowski.GeometryConstruction []], Returned [])) /\
  ((minkowski.extractUniqueVertices triangle_geometry <> [] /\
    minkowski.extractUniqueVertices square_geometry <> []) /\
   exists sums,
     length sums = 12 /\
     (forall s, s ∈ sums <->
        exists a b, a ∈ minkowski.extractUniqueVertices triangle_geometry /\
                    b ∈ minkowski.extractUniqueVertices square_geometry /\
                    s = notions.point_sum a b) /\
     minkowski.minkowskiSumConvex hull_of_four triangle_geometry square_geometry
     = ([minkowski.HullConstruction sums; minkowski.GeometryConstruction []],
        Returned [])) /\
  (minkowski.extractUniqueVertices point_geometry <> [] /\
   exists sums,
     length sums = 1 /\
     minkowski.minkowskiSumConvex hull_of_four point_geometry point_geometry
     = ([minkowski.HullConstruction sums], Thrown "hullPoints3 needs 4 points")).
Proof.
  assert (minkowski.extractUniqueVertices (N:=float) [] = [] \/
          minkowski.extractUniqueVertices triangle_geometry = []) as H1
    by (left; reflexivity).
  assert (minkowski.extractUniqueVertices triangle_geometry <> []) as H2
    by (vm_compute; discriminate).
  assert (minkowski.extractUniqueVertices square_geometry <> []) as H3
    by (vm_compute; discriminate).
  assert (minkowski.extractUniqueVertices point_geometry <> []) as H4
    by (vm_compute; discriminate).
  split; [split; [exact H1|] | split; [split; [by split|] | split; [exact H4|]]].
  - exact (proj1 (minkowskiSumConvex_hull_of_sums hull_of_four [] triangle_geometry) H1).
  - destruct (proj2 (minkowskiSumConvex_hull_of_sums hull_of_four
                       triangle_geometry square_geometry) H2 H3)
      as (sums & Hlen & Helem & Hreturned & _).
    change (length sums = 12) in Hlen.
    exists sums. split; [exact Hlen|]. split; [exact Helem|].
    apply Hreturned. unfold hull_of_four. by rewrite Hlen.
  - destruct (proj2 (minkowskiSumConvex_hull_of_sums hull_of_four
                       point_geometry point_geometry) H4 H4)
      as (sums & Hlen & _ & _ & Hthrown).
    change (length sums = 1) in Hlen.
    exists sums. split; [exact Hlen|].
    apply Hthrown. unfold hull_of_four. by rewrite Hlen.
Defined.

Lemma minkowskiSumNonConvexConvex_union_witness :
  (minkowski.minkowskiSumNonConvexConvex hullPoints3 union [] triangle_geometry
   = ([minkowski.GeometryConstruction []], Returned [])) /\
  (triangle_tetrahedra = [hd [] triangle_tetrahedra] /\
   minkowski.minkowskiSumNonConvexConvex hullPoints3 union
     triangle_geometry square_geometry
   = (minkowski.GeometryConstruction (hd [] triangle_tetrahedra)
        :: (minkowski.minkowskiSumConvex hullPoints3
              (hd [] triangle_tetrahedra) square_geometry).1,
      (minkowski.minkowskiSumConvex hullPoints3
         (hd [] triangle_tetrahedra) square_geometry).2)) /\
  ((2 <= length square_tetrahedra /\
    Forall2 (fun tet part =>
               (minkowski.minkowskiSumConvex hullPoints3 tet triangle_geometry).2
               = Returned part)
            square_tetrahedra [[]; []]) /\
   minkowski.minkowskiSumNonConvexConvex hullPoints3 union
     square_geometry triangle_geometry
   = (map minkowski.GeometryConstruction square_tetrahedra
        ++ flat_map (fun tet =>
                       (minkowski.minkowskiSumConvex hullPoints3
                          tet triangle_geometry).1)
                    square_tetrahedra
        ++ [minkowski.UnionConstruction [[]; []]],
      union [[]; []])) /\
  ((square_tetrahedra
    = [] ++ hd [] square_tetrahedra :: tail square_tetrahedra /\
    (minkowski.minkowskiSumConvex hull_fails
       (hd [] square_tetrahedra) triangle_geometry).2
    = Thrown "hullPoints3 failed") /\
   minkowski.minkowskiSumNonConvexConvex hull_fails union
     square_geometry triangle_geometry
   = (map minkowski.GeometryConstruction square_tetrahedra
        ++ flat_map (fun tet =>
                       (minkowski.minkowskiSumConvex hull_fails
                          tet triangle_geometry).1)
                    ([] ++ [hd [] square_tetrahedra]),
      Thrown "hullPoints3 failed")).
Proof.
  split; [|split; [|split]].
  - destruct (minkowskiSumNonConvexConvex_union hullPoints3 union
                [] triangle_geometry)
      as (tets & Hdec & _ & _ & Hnone & _).
    apply Hnone. simpl in Hdec. injection Hdec as _ Htets. by symmetry.
  - destruct (minkowskiSumNonConvexConvex_union hullPoints3 union
                triangle_geometry square_geometry)
      as (tets & Hdec & _ & _ & _ & Hone & _).
    assert (tets = triangle_tetrahedra) as ->
      by (unfold triangle_tetrahedra, tetrahedra; by rewrite Hdec).
    assert (triangle_tetrahedra = [hd [] triangle_tetrahedra]) as Hsingle
      by (vm_compute; reflexivity).
    split; [exact Hsingle|]. exact (Hone _ Hsingle).
  - destruct (minkowskiSumNonConvexConvex_union hullPoints3 union
                square_geometry triangle_geometry)
      as (tets & Hdec & _ & _ & _ & _ & Hall & _).
    assert (tets = square_tetrahedra) as ->
      by (unfold square_tetrahedra, tetrahedra; by rewrite Hdec).
    assert (2 <= length square_tetrahedra) as Hcount by (vm_compute; lia).
    assert (Forall2 (fun tet part =>
                       (minkowski.minkowskiSumConvex hullPoints3
                          tet triangle_geometry).2 = Returned part)
                    square_tetrahedra [[]; []]) as Hparts
      by (vm_compute; repeat constructor).
    split; [by split|]. exact (Hall _ Hcount Hparts).
  - destruct (minkowskiSumNonConvexConvex_union hull_fails union
                square_geometry triangle_geometry)
      as (tets & Hdec & _ & _ & _ & _ & _ & Hthrow).
    assert (tets = square_tetrahedra) as ->
      by (unfold square_tetrahedra, tetrahedra; by rewrite Hdec).
    assert (square_tetrahedra
            = [] ++ hd [] square_tetrahedra :: tail square_tetrahedra) as Hsplit
      by (vm_compute; reflexivity).
    assert ((minkowski.minkowskiSumConvex hull_fails
               (hd [] square_tetrahedra) triangle_geometry).2
            = Thrown "hullPoints3 failed") as Hfails
      by (vm_compute; reflexivity).
    split; [by split|].
    exact (Hthrow [] _ _ _ Hsplit (List.Forall_nil _) Hfails).
Defined.

Lemma minkowskiSum_errors_witness :
  minkowski.minkowskiSum isConvex hull_of_four union
    [minkowski.Geom point_geometry; minkowski.Geom point_geometry]
  = ([minkowski.ConvexityAnalysis point_geometry;
      minkowski.ConvexityAnalysis point_geometry;
      minkowski.HullConstruction [v 2 2 2]],
     Thrown "hullPoints3 needs 4 points") /\
  ((("hullPoints3 needs 4 points" : string) ∈ notions.own_messages /\
    Forall (fun e => notions.is_construction e = false)
           [minkowski.ConvexityAnalysis point_geometry;
            minkowski.ConvexityAnalysis point_geometry;
            minkowski.HullConstruction [v 2 2 2]] /\
    length [minkowski.ConvexityAnalysis point_geometry;
            minkowski.ConvexityAnalysis point_geometry;
            minkowski.HullConstruction [v 2 2 2]] <= 2) \/
   (exists points,
      minkowski.HullConstruction points
      ∈ [minkowski.ConvexityAnalysis point_geometry;
         minkowski.ConvexityAnalysis point_geometry;
         minkowski.HullConstruction [v 2 2 2]] /\
      hull_of_four points = Thrown "hullPoints3 needs 4 points") \/
   (exists parts,
      minkowski.UnionConstruction parts
      ∈ [minkowski.ConvexityAnalysis point_geometry;
         minkowski.ConvexityAnalysis point_geometry;
         minkowski.HullConstruction [v 2 2 2]] /\
      union parts = Thrown "hullPoints3 needs 4 points")).
Proof.
  assert (minkowski.minkowskiSum isConvex hull_of_four union
            [minkowski.Geom point_geometry; minkowski.Geom point_geometry]
          = ([minkowski.ConvexityAnalysis point_geometry;
              minkowski.ConvexityAnalysis point_geometry;
              minkowski.HullConstruction [v 2 2 2]],
             Thrown "hullPoints3 needs 4 points"))
    as Hrun by (vm_compute; reflexivity).
  split; [exact Hrun|].
  exact (minkowskiSum_errors isConvex hull_of_four union _ _ _ Hrun).
Defined.

Lemma minkowskiSum_empty_operand_witness :
  (minkowski.flatten [minkowski.Geom []; solid]
   = [minkowski.Geom []; minkowski.Geom triangle_geometry] /\
   ((@nil (poly3 float) = [] /\ isConvex triangle_geometry = true) \/
    (triangle_geometry = [] /\ isConvex [] = true))) /\
  minkowski.minkowskiSum isConvex hullPoints3 union [minkowski.Geom []; solid]
  = ([minkowski.ConvexityAnalysis []; minkowski.ConvexityAnalysis triangle_geometry;
      minkowski.GeometryConstruction []],
     Returned []).
Proof.
  assert (minkowski.flatten [minkowski.Geom []; solid]
          = [minkowski.Geom []; minkowski.Geom triangle_geometry]) as H1
    by reflexivity.
  assert ((@nil (poly3 float) = [] /\ isConvex triangle_geometry = true) \/
          (triangle_geometry = [] /\ isConvex [] = true)) as H2
    by (left; split; reflexivity).
  split; [split; assumption|].
  exact (minkowskiSum_empty_operand isConvex hullPoints3 union _ _ _ H1 H2).
Defined.

Lemma minkowskiSum_swap_witness :
  only_empty_convex [] <> only_empty_convex triangle_geometry /\
  (minkowski.minkowskiSum only_empty_convex hullPoints3 union
     [minkowski.Geom []; minkowski.Geom triangle_geometry]).2
  = (minkowski.minkowskiSum only_empty_convex hullPoints3 union
       [minkowski.Geom triangle_geometry; minkowski.Geom []]).2 /\
  List.filter notions.is_construction
    (minkowski.minkowskiSum only_empty_convex hullPoints3 union
       [minkowski.Geom []; minkowski.Geom triangle_geometry]).1
  = List.filter notions.is_construction
      (minkowski.minkowskiSum only_empty_convex hullPoints3 union
         [minkowski.Geom triangle_geometry; minkowski.Geom []]).1.
Proof.
  assert (only_empty_convex [] <> only_empty_convex triangle_geometry) as Hne
    by (simpl; discriminate).
  split; [exact Hne|].
  exact (minkowskiSum_swap only_empty_convex hullPoints3 union [] triangle_geometry Hne).
Defined.

Lemma stores_well_sized_witness :
  (Forall notions.sized_call sized_calls /\
   calls.run_calls fromPoints sized_calls ∅ = Some sized_store) /\
  notions.well_sized sized_store.
Proof.
  assert (Forall notions.sized_call sized_calls) as Hcalls.
  { unfold sized_calls.
    repeat (apply Forall_cons; split; [first [exact I | right; simpl; lia]|]).
    apply Forall_nil_2. }
  assert (calls.run_calls fromPoints sized_calls ∅ = Some sized_store) as Hrun
    by (vm_compute; reflexivity).
  split; [split; assumption|].
  exact (stores_well_sized fromPoints sized_calls sized_store Hcalls Hrun).
Defined.

Lemma measureBoundingSphere_frame_witness :
  measure.measureBoundingSphere triangle_ref triangle_store
    = Some (triangle_sphere, measured_store) /\
  (forall l, l <> triangle_ref -> measured_store !! l = triangle_store !! l) /\
  exists p p',
    triangle_store !! triangle_ref = Some p /\
    measured_store !! triangle_ref = Some p' /\
    vertices p' = vertices p /\ plane p' = plane p.
Proof.
  assert (measure.measureBoundingSphere triangle_ref triangle_store
          = Some (triangle_sphere, measured_store)) as Hrun
    by (vm_compute; reflexivity).
  split; [exact Hrun|].
  exact (measureBoundingSphere_frame _ _ _ _ Hrun).
Defined.

Lemma invert_twice_witness :
  (triangle_store !! triangle_ref = Some (Poly3 triangle None None) /\
   notions.sized triangle) /\
  exists inverted h1 again h2,
    poly3.invert triangle_ref triangle_store = Some (inverted, h1) /\
    poly3.invert inverted h1 = Some (again, h2) /\
    h2 !! again = Some {| vertices := triangle; plane := None;
                          boundingSphere := None |} /\
    h2 !! triangle_ref = Some (Poly3 triangle None None).
Proof.
  assert (triangle_store !! triangle_ref = Some (Poly3 triangle None None)) as Hp
    by (vm_compute; reflexivity).
  assert (notions.sized triangle) as Hsized by (right; simpl; lia).
  split; [split; assumption|].
  exact (invert_twice triangle_ref _ triangle_store Hp Hsized).
Defined.

End MoreRuns.

Section MoreIdealRuns.
Import ideal.
Local Open Scope R_scope.

Lemma inverted_sphere_witness :
  (calls.well_cached triangle_store /\
   triangle_store !! 1%positive = Some triangle /\
   (3 <= length (vertices triangle))%nat) /\
  exists inverted h1 s h2 h3,
    poly3.invert 1%positive triangle_store = Some (inverted, h1) /\
    measure.measureBoundingSphere 1%positive triangle_store = Some (s, h2) /\
    measure.measureBoundingSphere inverted h1 = Some (s, h3).
Proof.
  assert (calls.well_cached triangle_store) as Hcached.
  { apply (run_calls_well_cached (fun _ => None)
             [calls.CallCreate (Some (vertices triangle))] ∅);
      [apply well_cached_empty | reflexivity]. }
  assert (triangle_store !! 1%positive = Some triangle) as Hl by reflexivity.
  assert (3 <= length (vertices triangle))%nat as Hlen by (simpl; lia).
  split; [repeat split; assumption|].
  exact (inverted_sphere 1%positive triangle triangle_store Hcached Hl Hlen).
Defined.

Lemma computeCentroid_in_box_witness :
  (forall v, v ∈ flat_map vertices [triangle] ->
     0 <= c0 v <= 4 /\ 0 <= c1 v <= 3 /\ 0 <= c2 v <= 0) /\
  flat_map vertices [triangle] <> [] /\
  (0 <= c0 (minkowski.computeCentroid [triangle]) <= 4 /\
   0 <= c1 (minkowski.computeCentroid [triangle]) <= 3 /\
   0 <= c2 (minkowski.computeCentroid [triangle]) <= 0).
Proof.
  assert (forall v, v ∈ flat_map vertices [triangle] ->
            c0 (Vec3 0 0 0) <= c0 v <= c0 (Vec3 4 3 0) /\
            c1 (Vec3 0 0 0) <= c1 v <= c1 (Vec3 4 3 0) /\
            c2 (Vec3 0 0 0) <= c2 v <= c2 (Vec3 4 3 0)) as Hbox.
  { intros v Hv. simpl in Hv.
    apply elem_of_cons in Hv as [-> | Hv]; [simpl; lra|].
    apply elem_of_cons in Hv as [-> | Hv]; [simpl; lra|].
    apply elem_of_cons in Hv as [-> | Hv]; [simpl; lra|].
    by apply elem_of_nil in Hv. }
  assert (flat_map vertices [triangle] <> []) as Hne by (simpl; discriminate).
  split; [exact Hbox|]. split; [exact Hne|].
  exact (proj2 (computeCentroid_in_box [triangle] (Vec3 0 0 0) (Vec3 4 3 0) Hbox) Hne).
Defined.

End MoreIdealRuns.
